(** * Instant-replay recorder: capture buffer, mode switch and playback cursor

    A shallow embedding of the [<script setup>] block of
    [src/components/VideoRecorder.vue] (the revision with A/B loop points and
    the scrub bar).  The component keeps its state in Vue refs and mutates it
    from event handlers; here every ref is a field of [State] and every
    handler is a function on [State].

    - JavaScript numbers that hold array indices are integers ([Z]); the ones
      that hold fractions (speed, delay, click position) are exact rationals
      ([Q]); [progress], which may be [0/0], has its own type [JsNumber].
    - The two arrays ([frameBuffer.value], [playbackFrames.value]) are heap
      objects: a ref holds a location, [push]/[shift] mutate the object in
      place, [[...xs]] allocates a new one.
    - [putImageData] throws a [TypeError] when its first argument is not an
      [ImageData]; a handler therefore returns a [Completion], and the state
      it carries is the one the throw leaves behind.
    - [setTimeout]/[clearTimeout] act on the list of armed timers.  A timer
      handle is a positive integer, so a stored handle is truthy exactly when
      it is not [null].

    Left out: the full-screen toggle, the drag and touch handlers (they seek
    as [handleProgressClick] does), and mounting and unmounting; [mounted] is
    the state once [onMounted] has found the camera and the canvas. *)

From Stdlib Require Import ZArith QArith Qround Qminmax Qfield String Lia Lqa.
From stdpp Require Import base list.

Close Scope Q_scope.
Open Scope string_scope.
Open Scope list_scope.
Open Scope nat_scope.

(** ** JavaScript values *)

(** The values [currentPlaybackIndex / playbackFrames.length] can take. *)
Inductive JsNumber :=
| NaN
| PosInfinity
| NegInfinity
| Num (q : Q).

(** [i / n] for an integer [i] and an array length [n]. *)
Definition jsDiv (i : Z) (n : nat) : JsNumber :=
  match n with
  | O => if (i =? 0)%Z then NaN else if (0 <? i)%Z then PosInfinity else NegInfinity
  | S n' => Num (i # Pos.of_succ_nat n')
  end.

(** [!x] for [x : number | null]: [null] and [0] are falsy. *)
Definition falsy (x : option Z) : bool :=
  match x with
  | None => true
  | Some 0%Z => true
  | Some _ => false
  end.

(** [x > i] for [x : number | null]; [null] converts to [0]. *)
Definition jsGt (x : option Z) (i : Z) : bool :=
  match x with
  | Some a => (a >? i)%Z
  | None => (0 >? i)%Z
  end.

(** [xs[i]]: [undefined] ([None]) outside the array. *)
Definition arrayGet {A} (xs : list A) (i : Z) : option A :=
  if (i <? 0)%Z then None else xs !! Z.to_nat i.

(** [xs.indexOf(x)] on numbers, counting from [i]. *)
Fixpoint indexOfFrom (x : Q) (xs : list Q) (i : Z) : Z :=
  match xs with
  | [] => (-1)%Z
  | y :: xs' => if Qeq_bool y x then i else indexOfFrom x xs' (i + 1)%Z
  end.

Definition indexOf (x : Q) (xs : list Q) : Z := indexOfFrom x xs 0.

Definition FRAME_RATE : Z := 60.

Definition speeds : list Q := [1#10; 1#4; 1#2; 1; 2]%Q.

(** [Math.max(16, 1000 / (FRAME_RATE * playbackSpeed.value))], in milliseconds. *)
Definition frameDelay (playbackSpeed : Q) : Q :=
  Qmax 16 (1000 / (inject_Z FRAME_RATE * playbackSpeed)).

Section Recorder.

Context {ImageData : Type}.

(** ** Component state *)

Record State := {
  (* refs of the component *)
  recording : bool;
  playing : bool;
  paused : bool;
  playbackSpeed : Q;
  abPointA : option Z;
  abPointB : option Z;
  abPointMode : bool;
  statusText : string;
  frameBuffer : nat;                  (* location of the array in [heap] *)
  bufferSize : nat;
  currentPlaybackIndex : Z;
  playbackFrames : nat;               (* location of the array in [heap] *)
  animationFrameId : option positive;
  playbackTimeoutId : option positive;
  liveVideo : bool;                   (* template refs: [true] when not null *)
  videoCanvas : bool;
  canvasContext : bool;
  progress : JsNumber;
  (* the browser *)
  heap : list (list ImageData);       (* array objects, by location *)
  timers : list (positive * Q);       (* armed [setTimeout(playNextFrame, delay)] *)
  nextTimer : positive;
  nextFrameRequest : positive;
  displayed : list (Z * ImageData)    (* [putImageData] calls, latest first,
                                         each with the cursor it was read at *)
}.

Definition set_recording (v : bool) (s : State) : State :=
  {| recording := v; playing := playing s; paused := paused s; playbackSpeed
     := playbackSpeed s; abPointA := abPointA s; abPointB := abPointB s;
     abPointMode := abPointMode s; statusText := statusText s; frameBuffer :=
     frameBuffer s; bufferSize := bufferSize s; currentPlaybackIndex :=
     currentPlaybackIndex s; playbackFrames := playbackFrames s;
     animationFrameId := animationFrameId s; playbackTimeoutId :=
     playbackTimeoutId s; liveVideo := liveVideo s; videoCanvas := videoCanvas
     s; canvasContext := canvasContext s; progress := progress s; heap := heap
     s; timers := timers s; nextTimer := nextTimer s; nextFrameRequest :=
     nextFrameRequest s; displayed := displayed s |}.

Definition set_playing (v : bool) (s : State) : State :=
  {| recording := recording s; playing := v; paused := paused s; playbackSpeed
     := playbackSpeed s; abPointA := abPointA s; abPointB := abPointB s;
     abPointMode := abPointMode s; statusText := statusText s; frameBuffer :=
     frameBuffer s; bufferSize := bufferSize s; currentPlaybackIndex :=
     currentPlaybackIndex s; playbackFrames := playbackFrames s;
     animationFrameId := animationFrameId s; playbackTimeoutId :=
     playbackTimeoutId s; liveVideo := liveVideo s; videoCanvas := videoCanvas
     s; canvasContext := canvasContext s; progress := progress s; heap := heap
     s; timers := timers s; nextTimer := nextTimer s; nextFrameRequest :=
     nextFrameRequest s; displayed := displayed s |}.

Definition set_paused (v : bool) (s : State) : State :=
  {| recording := recording s; playing := playing s; paused := v;
     playbackSpeed := playbackSpeed s; abPointA := abPointA s; abPointB :=
     abPointB s; abPointMode := abPointMode s; statusText := statusText s;
     frameBuffer := frameBuffer s; bufferSize := bufferSize s;
     currentPlaybackIndex := currentPlaybackIndex s; playbackFrames :=
     playbackFrames s; animationFrameId := animationFrameId s;
     playbackTimeoutId := playbackTimeoutId s; liveVideo := liveVideo s;
     videoCanvas := videoCanvas s; canvasContext := canvasContext s; progress
     := progress s; heap := heap s; timers := timers s; nextTimer := nextTimer
     s; nextFrameRequest := nextFrameRequest s; displayed := displayed s |}.

Definition set_playbackSpeed (v : Q) (s : State) : State :=
  {| recording := recording s; playing := playing s; paused := paused s;
     playbackSpeed := v; abPointA := abPointA s; abPointB := abPointB s;
     abPointMode := abPointMode s; statusText := statusText s; frameBuffer :=
     frameBuffer s; bufferSize := bufferSize s; currentPlaybackIndex :=
     currentPlaybackIndex s; playbackFrames := playbackFrames s;
     animationFrameId := animationFrameId s; playbackTimeoutId :=
     playbackTimeoutId s; liveVideo := liveVideo s; videoCanvas := videoCanvas
     s; canvasContext := canvasContext s; progress := progress s; heap := heap
     s; timers := timers s; nextTimer := nextTimer s; nextFrameRequest :=
     nextFrameRequest s; displayed := displayed s |}.

Definition set_abPointA (v : option Z) (s : State) : State :=
  {| recording := recording s; playing := playing s; paused := paused s;
     playbackSpeed := playbackSpeed s; abPointA := v; abPointB := abPointB s;
     abPointMode := abPointMode s; statusText := statusText s; frameBuffer :=
     frameBuffer s; bufferSize := bufferSize s; currentPlaybackIndex :=
     currentPlaybackIndex s; playbackFrames := playbackFrames s;
     animationFrameId := animationFrameId s; playbackTimeoutId :=
     playbackTimeoutId s; liveVideo := liveVideo s; videoCanvas := videoCanvas
     s; canvasContext := canvasContext s; progress := progress s; heap := heap
     s; timers := timers s; nextTimer := nextTimer s; nextFrameRequest :=
     nextFrameRequest s; displayed := displayed s |}.

Definition set_abPointB (v : option Z) (s : State) : State :=
  {| recording := recording s; playing := playing s; paused := paused s;
     playbackSpeed := playbackSpeed s; abPointA := abPointA s; abPointB := v;
     abPointMode := abPointMode s; statusText := statusText s; frameBuffer :=
     frameBuffer s; bufferSize := bufferSize s; currentPlaybackIndex :=
     currentPlaybackIndex s; playbackFrames := playbackFrames s;
     animationFrameId := animationFrameId s; playbackTimeoutId :=
     playbackTimeoutId s; liveVideo := liveVideo s; videoCanvas := videoCanvas
     s; canvasContext := canvasContext s; progress := progress s; heap := heap
     s; timers := timers s; nextTimer := nextTimer s; nextFrameRequest :=
     nextFrameRequest s; displayed := displayed s |}.

Definition set_abPointMode (v : bool) (s : State) : State :=
  {| recording := recording s; playing := playing s; paused := paused s;
     playbackSpeed := playbackSpeed s; abPointA := abPointA s; abPointB :=
     abPointB s; abPointMode := v; statusText := statusText s; frameBuffer :=
     frameBuffer s; bufferSize := bufferSize s; currentPlaybackIndex :=
     currentPlaybackIndex s; playbackFrames := playbackFrames s;
     animationFrameId := animationFrameId s; playbackTimeoutId :=
     playbackTimeoutId s; liveVideo := liveVideo s; videoCanvas := videoCanvas
     s; canvasContext := canvasContext s; progress := progress s; heap := heap
     s; timers := timers s; nextTimer := nextTimer s; nextFrameRequest :=
     nextFrameRequest s; displayed := displayed s |}.

Definition set_statusText (v : string) (s : State) : State :=
  {| recording := recording s; playing := playing s; paused := paused s;
     playbackSpeed := playbackSpeed s; abPointA := abPointA s; abPointB :=
     abPointB s; abPointMode := abPointMode s; statusText := v; frameBuffer :=
     frameBuffer s; bufferSize := bufferSize s; currentPlaybackIndex :=
     currentPlaybackIndex s; playbackFrames := playbackFrames s;
     animationFrameId := animationFrameId s; playbackTimeoutId :=
     playbackTimeoutId s; liveVideo := liveVideo s; videoCanvas := videoCanvas
     s; canvasContext := canvasContext s; progress := progress s; heap := heap
     s; timers := timers s; nextTimer := nextTimer s; nextFrameRequest :=
     nextFrameRequest s; displayed := displayed s |}.

Definition set_currentPlaybackIndex (v : Z) (s : State) : State :=
  {| recording := recording s; playing := playing s; paused := paused s;
     playbackSpeed := playbackSpeed s; abPointA := abPointA s; abPointB :=
     abPointB s; abPointMode := abPointMode s; statusText := statusText s;
     frameBuffer := frameBuffer s; bufferSize := bufferSize s;
     currentPlaybackIndex := v; playbackFrames := playbackFrames s;
     animationFrameId := animationFrameId s; playbackTimeoutId :=
     playbackTimeoutId s; liveVideo := liveVideo s; videoCanvas := videoCanvas
     s; canvasContext := canvasContext s; progress := progress s; heap := heap
     s; timers := timers s; nextTimer := nextTimer s; nextFrameRequest :=
     nextFrameRequest s; displayed := displayed s |}.

Definition set_playbackFrames (v : nat) (s : State) : State :=
  {| recording := recording s; playing := playing s; paused := paused s;
     playbackSpeed := playbackSpeed s; abPointA := abPointA s; abPointB :=
     abPointB s; abPointMode := abPointMode s; statusText := statusText s;
     frameBuffer := frameBuffer s; bufferSize := bufferSize s;
     currentPlaybackIndex := currentPlaybackIndex s; playbackFrames := v;
     animationFrameId := animationFrameId s; playbackTimeoutId :=
     playbackTimeoutId s; liveVideo := liveVideo s; videoCanvas := videoCanvas
     s; canvasContext := canvasContext s; progress := progress s; heap := heap
     s; timers := timers s; nextTimer := nextTimer s; nextFrameRequest :=
     nextFrameRequest s; displayed := displayed s |}.

Definition set_animationFrameId (v : option positive) (s : State) : State :=
  {| recording := recording s; playing := playing s; paused := paused s;
     playbackSpeed := playbackSpeed s; abPointA := abPointA s; abPointB :=
     abPointB s; abPointMode := abPointMode s; statusText := statusText s;
     frameBuffer := frameBuffer s; bufferSize := bufferSize s;
     currentPlaybackIndex := currentPlaybackIndex s; playbackFrames :=
     playbackFrames s; animationFrameId := v; playbackTimeoutId :=
     playbackTimeoutId s; liveVideo := liveVideo s; videoCanvas := videoCanvas
     s; canvasContext := canvasContext s; progress := progress s; heap := heap
     s; timers := timers s; nextTimer := nextTimer s; nextFrameRequest :=
     nextFrameRequest s; displayed := displayed s |}.

Definition set_playbackTimeoutId (v : option positive) (s : State) : State :=
  {| recording := recording s; playing := playing s; paused := paused s;
     playbackSpeed := playbackSpeed s; abPointA := abPointA s; abPointB :=
     abPointB s; abPointMode := abPointMode s; statusText := statusText s;
     frameBuffer := frameBuffer s; bufferSize := bufferSize s;
     currentPlaybackIndex := currentPlaybackIndex s; playbackFrames :=
     playbackFrames s; animationFrameId := animationFrameId s;
     playbackTimeoutId := v; liveVideo := liveVideo s; videoCanvas :=
     videoCanvas s; canvasContext := canvasContext s; progress := progress s;
     heap := heap s; timers := timers s; nextTimer := nextTimer s;
     nextFrameRequest := nextFrameRequest s; displayed := displayed s |}.

Definition set_progress (v : JsNumber) (s : State) : State :=
  {| recording := recording s; playing := playing s; paused := paused s;
     playbackSpeed := playbackSpeed s; abPointA := abPointA s; abPointB :=
     abPointB s; abPointMode := abPointMode s; statusText := statusText s;
     frameBuffer := frameBuffer s; bufferSize := bufferSize s;
     currentPlaybackIndex := currentPlaybackIndex s; playbackFrames :=
     playbackFrames s; animationFrameId := animationFrameId s;
     playbackTimeoutId := playbackTimeoutId s; liveVideo := liveVideo s;
     videoCanvas := videoCanvas s; canvasContext := canvasContext s; progress
     := v; heap := heap s; timers := timers s; nextTimer := nextTimer s;
     nextFrameRequest := nextFrameRequest s; displayed := displayed s |}.

Definition set_heap (v : list (list ImageData)) (s : State) : State :=
  {| recording := recording s; playing := playing s; paused := paused s;
     playbackSpeed := playbackSpeed s; abPointA := abPointA s; abPointB :=
     abPointB s; abPointMode := abPointMode s; statusText := statusText s;
     frameBuffer := frameBuffer s; bufferSize := bufferSize s;
     currentPlaybackIndex := currentPlaybackIndex s; playbackFrames :=
     playbackFrames s; animationFrameId := animationFrameId s;
     playbackTimeoutId := playbackTimeoutId s; liveVideo := liveVideo s;
     videoCanvas := videoCanvas s; canvasContext := canvasContext s; progress
     := progress s; heap := v; timers := timers s; nextTimer := nextTimer s;
     nextFrameRequest := nextFrameRequest s; displayed := displayed s |}.

Definition set_timers (v : list (positive * Q)) (s : State) : State :=
  {| recording := recording s; playing := playing s; paused := paused s;
     playbackSpeed := playbackSpeed s; abPointA := abPointA s; abPointB :=
     abPointB s; abPointMode := abPointMode s; statusText := statusText s;
     frameBuffer := frameBuffer s; bufferSize := bufferSize s;
     currentPlaybackIndex := currentPlaybackIndex s; playbackFrames :=
     playbackFrames s; animationFrameId := animationFrameId s;
     playbackTimeoutId := playbackTimeoutId s; liveVideo := liveVideo s;
     videoCanvas := videoCanvas s; canvasContext := canvasContext s; progress
     := progress s; heap := heap s; timers := v; nextTimer := nextTimer s;
     nextFrameRequest := nextFrameRequest s; displayed := displayed s |}.

Definition set_nextTimer (v : positive) (s : State) : State :=
  {| recording := recording s; playing := playing s; paused := paused s;
     playbackSpeed := playbackSpeed s; abPointA := abPointA s; abPointB :=
     abPointB s; abPointMode := abPointMode s; statusText := statusText s;
     frameBuffer := frameBuffer s; bufferSize := bufferSize s;
     currentPlaybackIndex := currentPlaybackIndex s; playbackFrames :=
     playbackFrames s; animationFrameId := animationFrameId s;
     playbackTimeoutId := playbackTimeoutId s; liveVideo := liveVideo s;
     videoCanvas := videoCanvas s; canvasContext := canvasContext s; progress
     := progress s; heap := heap s; timers := timers s; nextTimer := v;
     nextFrameRequest := nextFrameRequest s; displayed := displayed s |}.

Definition set_nextFrameRequest (v : positive) (s : State) : State :=
  {| recording := recording s; playing := playing s; paused := paused s;
     playbackSpeed := playbackSpeed s; abPointA := abPointA s; abPointB :=
     abPointB s; abPointMode := abPointMode s; statusText := statusText s;
     frameBuffer := frameBuffer s; bufferSize := bufferSize s;
     currentPlaybackIndex := currentPlaybackIndex s; playbackFrames :=
     playbackFrames s; animationFrameId := animationFrameId s;
     playbackTimeoutId := playbackTimeoutId s; liveVideo := liveVideo s;
     videoCanvas := videoCanvas s; canvasContext := canvasContext s; progress
     := progress s; heap := heap s; timers := timers s; nextTimer := nextTimer
     s; nextFrameRequest := v; displayed := displayed s |}.

Definition set_displayed (v : list (Z * ImageData)) (s : State) : State :=
  {| recording := recording s; playing := playing s; paused := paused s;
     playbackSpeed := playbackSpeed s; abPointA := abPointA s; abPointB :=
     abPointB s; abPointMode := abPointMode s; statusText := statusText s;
     frameBuffer := frameBuffer s; bufferSize := bufferSize s;
     currentPlaybackIndex := currentPlaybackIndex s; playbackFrames :=
     playbackFrames s; animationFrameId := animationFrameId s;
     playbackTimeoutId := playbackTimeoutId s; liveVideo := liveVideo s;
     videoCanvas := videoCanvas s; canvasContext := canvasContext s; progress
     := progress s; heap := heap s; timers := timers s; nextTimer := nextTimer
     s; nextFrameRequest := nextFrameRequest s; displayed := v |}.

(** ** The browser: arrays and timers *)

Definition readArray (s : State) (loc : nat) : list ImageData :=
  default [] (heap s !! loc).

Definition writeArray (loc : nat) (xs : list ImageData) (s : State) : State :=
  set_heap (<[loc := xs]> (heap s)) s.

(** A new array object; its location is the first unused one. *)
Definition allocArray (xs : list ImageData) (s : State) : nat * State :=
  (length (heap s), set_heap (heap s ++ [xs]) s).

Definition setTimeout (delay : Q) (s : State) : positive * State :=
  let id := nextTimer s in
  (id, set_nextTimer (Pos.succ id) (set_timers (timers s ++ [(id, delay)]) s)).

Definition clearTimeout (id : positive) (s : State) : State :=
  set_timers (List.filter (fun t => negb (Pos.eqb (fst t) id)) (timers s)) s.

Definition requestAnimationFrame (s : State) : positive * State :=
  let id := nextFrameRequest s in
  (id, set_nextFrameRequest (Pos.succ id) s).

(** How a handler ends: normally, or with an uncaught [TypeError]. *)
Inductive Completion :=
| Normal (s : State)
| Throw (s : State).

Definition stateOf (c : Completion) : State :=
  match c with
  | Normal s => s
  | Throw s => s
  end.

Definition andThen (c : Completion) (k : State -> Completion) : Completion :=
  match c with
  | Normal s => k s
  | Throw s => Throw s
  end.

(** ** Capture *)

(** [frameBuffer.value.push(frameData)] and the [shift] that keeps the size. *)
Definition storeFrame (frameData : ImageData) (s : State) : State :=
  let s := writeArray (frameBuffer s) (readArray s (frameBuffer s) ++ [frameData]) s in
  if bufferSize s <? length (readArray s (frameBuffer s))
  then writeArray (frameBuffer s) (drop 1 (readArray s (frameBuffer s))) s
  else s.

(** The [requestAnimationFrame] callback.  [videoWidth] and [videoHeight] are
    the dimensions of the live video at the call and [frameData] is what
    [getImageData] reads back from the canvas once the frame is drawn. *)
Definition captureFrame (videoWidth videoHeight : Z) (frameData : ImageData)
    (s : State) : State :=
  if negb (videoCanvas s) then s
  else
    let s :=
      if recording s && negb (playing s) && liveVideo s then
        let s :=
          if (videoWidth >? 0)%Z && (videoHeight >? 0)%Z then
            if canvasContext s then storeFrame frameData s else s
          else s in
        set_statusText "录制中" s
      else s in
    let (id, s) := requestAnimationFrame s in
    set_animationFrameId (Some id) s.

(** ** Playback *)

Definition playNextFrame (s : State) : Completion :=
  if negb (videoCanvas s) || negb (canvasContext s) || negb (playing s) || paused s
  then Normal s
  else
    let s :=
      match abPointMode s, abPointA s, abPointB s with
      | true, Some a, Some b =>
          let s :=
            if (currentPlaybackIndex s >=? b)%Z
            then set_currentPlaybackIndex a s else s in
          if (currentPlaybackIndex s <? a)%Z
          then set_currentPlaybackIndex a s else s
      | _, _, _ =>
          if (currentPlaybackIndex s >=? Z.of_nat (length (readArray s (playbackFrames s))))%Z
          then set_currentPlaybackIndex 0 s else s
      end in
    let s :=
      set_progress
        (jsDiv (currentPlaybackIndex s) (length (readArray s (playbackFrames s)))) s in
    match arrayGet (readArray s (playbackFrames s)) (currentPlaybackIndex s) with
    | None => Throw s                  (* putImageData(undefined, 0, 0) *)
    | Some frame =>
        let s := set_displayed ((currentPlaybackIndex s, frame) :: displayed s) s in
        let s := set_currentPlaybackIndex (currentPlaybackIndex s + 1) s in
        let delay := frameDelay (playbackSpeed s) in
        let (id, s) := setTimeout delay s in
        Normal (set_playbackTimeoutId (Some id) s)
    end.

Definition startPlayback (s : State) : Completion :=
  if length (readArray s (frameBuffer s)) =? 0 then Normal s
  else
    let (loc, s) := allocArray (readArray s (frameBuffer s)) s in
    let s := set_playbackFrames loc s in
    let s := set_currentPlaybackIndex 0 s in
    andThen (playNextFrame s) (fun s =>
    Normal (set_statusText "回放中" s)).

Definition toggleMode (s : State) : Completion :=
  let s := set_recording (negb (recording s)) s in
  let s := set_playing (negb (recording s)) s in
  let s := set_paused false s in
  let s := if recording s then set_progress (Num (-1)) s else s in
  if playing s then startPlayback s
  else
    match playbackTimeoutId s with
    | Some id => Normal (set_playbackTimeoutId None (clearTimeout id s))
    | None => Normal s
    end.

Definition toggleABPoints (s : State) : State :=
  if falsy (abPointA s) then
    let s := set_abPointA (Some (currentPlaybackIndex s)) s in
    set_statusText "设置A点" s
  else if falsy (abPointB s) then
    let s :=
      if jsGt (abPointA s) (currentPlaybackIndex s)
      then set_abPointB (Some (Z.of_nat (length (readArray s (playbackFrames s))) - 1)%Z) s
      else set_abPointB (Some (currentPlaybackIndex s)) s in
    let s := set_abPointMode true s in
    set_statusText "AB循环中" s
  else
    let s := set_abPointA None s in
    let s := set_abPointB None s in
    let s := set_abPointMode false s in
    set_statusText "Recalling" s.

Definition togglePause (s : State) : Completion :=
  let s := set_paused (negb (paused s)) s in
  if negb (paused s) && playing s then playNextFrame s else Normal s.

(** The part of the three seek and speed handlers that restarts the timer. *)
Definition replayNow (s : State) : Completion :=
  if playing s && negb (paused s) then
    let s :=
      match playbackTimeoutId s with
      | Some id => clearTimeout id s
      | None => s
      end in
    playNextFrame s
  else Normal s.

(** [clickPosition] is [event.clientX / window.innerWidth]. *)
Definition handleProgressClick (clickPosition : Q) (s : State) : Completion :=
  if negb (playing s) || negb (videoCanvas s) then Normal s
  else
    let targetIndex :=
      Qfloor (clickPosition * inject_Z (Z.of_nat (length (readArray s (playbackFrames s))))) in
    let s := set_currentPlaybackIndex targetIndex s in
    let s :=
      set_progress
        (jsDiv (currentPlaybackIndex s) (length (readArray s (playbackFrames s)))) s in
    replayNow s.

Definition adjustSpeed (speedFactor : Q) (s : State) : Completion :=
  let s := set_playbackSpeed speedFactor s in
  replayNow s.

Definition cycleSpeed (s : State) : Completion :=
  let currentIndex := indexOf (playbackSpeed s) speeds in
  let nextIndex := Z.rem (currentIndex + 1) (Z.of_nat (length speeds)) in
  match arrayGet speeds nextIndex with
  | Some speed =>
      let s := set_playbackSpeed speed s in
      adjustSpeed (playbackSpeed s) s
  | None => Normal s                  (* not reached: 0 <= nextIndex < 5 *)
  end.

(** ** The engine as the outside sees it *)

Inductive Command :=
| ToggleMode
| TogglePause
| CycleSpeed
| SeekToFraction (f : Q)
| ToggleLoopPoint.

Definition execute (c : Command) (s : State) : Completion :=
  match c with
  | ToggleMode => toggleMode s
  | TogglePause => togglePause s
  | CycleSpeed => cycleSpeed s
  | SeekToFraction f => handleProgressClick f s
  | ToggleLoopPoint => Normal (toggleABPoints s)
  end.

Inductive Event :=
| Issue (c : Command)
| AnimationFrame (videoWidth videoHeight : Z) (frameData : ImageData)
| TimerFired (id : positive).

Definition isArmed (id : positive) (s : State) : bool :=
  existsb (fun t => Pos.eqb (fst t) id) (timers s).

Definition handle (e : Event) (s : State) : Completion :=
  match e with
  | Issue c => execute c s
  | AnimationFrame w h frameData => Normal (captureFrame w h frameData s)
  | TimerFired id =>
      if isArmed id s then playNextFrame (clearTimeout id s) else Normal s
  end.

(** A handler that throws leaves the page running: the next event finds the
    state the throw left. *)
Definition run (es : list Event) (s : State) : State :=
  fold_left (fun s e => stateOf (handle e s)) es s.

(** The component once mounted, with room for [capacity] frames. *)
Definition mounted (capacity : nat) : State :=
  {| recording := true; playing := false; paused := false;
     playbackSpeed := (1#4)%Q;
     abPointA := None; abPointB := None; abPointMode := false;
     statusText := "Record";
     frameBuffer := 0; bufferSize := capacity;
     currentPlaybackIndex := 0; playbackFrames := 1;
     animationFrameId := Some 1%positive; playbackTimeoutId := None;
     liveVideo := true; videoCanvas := true; canvasContext := true;
     progress := Num (-1);
     heap := [[]; []]; timers := []; nextTimer := 1; nextFrameRequest := 2;
     displayed := [] |}.

Definition initial : State := mounted (Z.to_nat (5 * FRAME_RATE)).

Definition reachable (s : State) : Prop := exists es, run es initial = s.

End Recorder.

Arguments State : clear implicits.
Arguments Completion : clear implicits.
Arguments Event : clear implicits.

(** * Vocabulary of the statements *)

Section Vocabulary.

Context {ImageData : Type}.
Implicit Types (s : State ImageData) (fs : list ImageData).

(** The capture loop stores a frame when all of this holds. *)
Definition capturing s : Prop :=
  videoCanvas s = true /\ canvasContext s = true /\ liveVideo s = true /\
  recording s = true /\ playing s = false.

(** The buffer ref points at an array object. *)
Definition bufferAllocated s : Prop := frameBuffer s < length (heap s).

Definition buffered s : list ImageData := readArray s (frameBuffer s).

Definition captureAll (w h : Z) fs s : State ImageData :=
  fold_left (fun s f => captureFrame w h f s) fs s.

Definition playbackSequence s : list ImageData := readArray s (playbackFrames s).

(** The guard of [playNextFrame] lets the step through. *)
Definition canPlay s : Prop :=
  videoCanvas s = true /\ canvasContext s = true /\
  playing s = true /\ paused s = false.

(** The cursor [playNextFrame] reads the frame at. *)
Definition cursorTarget s : Z :=
  match abPointMode s, abPointA s, abPointB s with
  | true, Some a, Some b =>
      let i := if (currentPlaybackIndex s >=? b)%Z then a else currentPlaybackIndex s in
      if (i <? a)%Z then a else i
  | _, _, _ =>
      if (currentPlaybackIndex s >=? Z.of_nat (length (playbackSequence s)))%Z
      then 0%Z else currentPlaybackIndex s
  end.

(** What a playback step leaves as it was. *)
Definition sameSession s s' : Prop :=
  recording s' = recording s /\ playing s' = playing s /\ paused s' = paused s /\
  playbackSpeed s' = playbackSpeed s /\
  abPointA s' = abPointA s /\ abPointB s' = abPointB s /\
  abPointMode s' = abPointMode s /\
  frameBuffer s' = frameBuffer s /\ bufferSize s' = bufferSize s /\
  playbackFrames s' = playbackFrames s /\
  liveVideo s' = liveVideo s /\ videoCanvas s' = videoCanvas s /\
  canvasContext s' = canvasContext s /\ heap s' = heap s.

(** The first block of [playNextFrame]: the cursor is brought back into the
    loop, or to the start of the sequence. *)
Definition wrapCursor s : State ImageData :=
  match abPointMode s, abPointA s, abPointB s with
  | true, Some a, Some b =>
      let s :=
        if (currentPlaybackIndex s >=? b)%Z
        then set_currentPlaybackIndex a s else s in
      if (currentPlaybackIndex s <? a)%Z
      then set_currentPlaybackIndex a s else s
  | _, _, _ =>
      if (currentPlaybackIndex s >=? Z.of_nat (length (readArray s (playbackFrames s))))%Z
      then set_currentPlaybackIndex 0 s else s
  end.

(** From [s] to [s'] the buffer ref still holds the same location, no array
    object is lost, and every array object other than the buffer's is as it
    was. *)
Definition keepsArrays s s' : Prop :=
  frameBuffer s' = frameBuffer s /\
  length (heap s) <= length (heap s') /\
  forall loc, loc < length (heap s) -> loc <> frameBuffer s ->
    heap s' !! loc = heap s !! loc.

(** The three flag assignments that open [toggleMode], when recording. *)
Definition flipToReplay s : State ImageData :=
  set_paused false (set_playing true (set_recording false s)).

(** The snapshot and the cursor reset of [startPlayback]. *)
Definition takeSnapshot s : State ImageData :=
  set_currentPlaybackIndex 0
    (set_playbackFrames (length (heap s)) (set_heap (heap s ++ [buffered s]) s)).

(** [n] playback steps in a row, as the timer chain runs them. *)
Fixpoint playFrames (n : nat) s : Completion ImageData :=
  match n with
  | O => Normal s
  | S n' => andThen (playNextFrame s) (playFrames n')
  end.

(** The indices drawn so far, oldest first. *)
Definition deliveredIndices s : list Z := rev (map fst (displayed s)).

(** Where a loop [{a, b}] sends the cursor [i] before the frame is read. *)
Definition loopEntry (a b i : Z) : Z :=
  if (i >=? b)%Z then a else if (i <? a)%Z then a else i.

(** The [k]-th index drawn from cursor [i] on: [b - a] indices from [a] up,
    over and over; [a] alone when [a = b]. *)
Definition loopIndex (a b i : Z) (k : nat) : Z :=
  if (a <? b)%Z
  then (a + (loopEntry a b i - a + Z.of_nat k) mod (b - a))%Z
  else a.

(** [frameDelay] with every arithmetic result rounded by [rnd], as it is in
    floating point. *)
Definition frameDelayWith (rnd : Q -> Q) (playbackSpeed : Q) : Q :=
  Qmax 16 (rnd (1000 / rnd (inject_Z FRAME_RATE * playbackSpeed))%Q).

(** Between steps the cursor is an index or one past the last. *)
Definition cursorInBounds s : Prop :=
  (0 <= currentPlaybackIndex s <= Z.of_nat (length (playbackSequence s)))%Z.


Definition cancelStored s : State ImageData :=
  match playbackTimeoutId s with
  | Some id => clearTimeout id s
  | None => s
  end.

End Vocabulary.

(** * The drag and touch handlers *)

Section Scrubbing.

Context {ImageData : Type}.
Implicit Types (s : State ImageData).



End Scrubbing.

(** * Vocabulary of the further properties *)

Section Invariants.

Context {ImageData : Type}.
Implicit Types (s : State ImageData).

(** The [k]-th index drawn from cursor [i] on when no loop is on: the whole
    sequence, over and over. *)
Definition plainIndex (len : nat) (i : Z) (k : nat) : Z :=
  ((i + Z.of_nat k) mod Z.of_nat len)%Z.

(** Every handler of the run ends normally. *)
Fixpoint crashFree (es : list (Event ImageData)) s : Prop :=
  match es with
  | [] => True
  | e :: es' => exists s', handle e s = Normal s' /\ crashFree es' s'
  end.

(** An event that sets no loop point and, when it seeks, seeks inside the
    bar. *)
Definition plainEvent (e : Event ImageData) : Prop :=
  match e with
  | Issue (SeekToFraction f) => (0 <= f)%Q /\ (f <= 1)%Q
  | Issue ToggleLoopPoint => False
  | _ => True
  end.

(** No loop is on, the buffer has a frame, and while playing the sequence
    has one too and the cursor is within its bounds. *)
Definition plainSession s : Prop :=
  abPointMode s = false /\ bufferAllocated s /\ buffered s <> [] /\
  (playing s = true -> playbackSequence s <> [] /\ cursorInBounds s).

(** One mode at a time, over a buffer that is one fixed array within its
    capacity and apart from the playback sequence. *)
Definition modeInvariant s : Prop :=
  playing s = negb (recording s) /\
  frameBuffer s = 0 /\ bufferSize s = Z.to_nat (5 * FRAME_RATE) /\
  bufferAllocated s /\ length (buffered s) <= bufferSize s /\
  playbackFrames s < length (heap s) /\ playbackFrames s <> frameBuffer s.

(** From [s] to [s'] the mode, the arrays and the refs to them are the
    same. *)
Definition sameMode s s' : Prop :=
  recording s' = recording s /\ playing s' = playing s /\
  frameBuffer s' = frameBuffer s /\ bufferSize s' = bufferSize s /\
  playbackFrames s' = playbackFrames s /\ heap s' = heap s.

(** A delay that [frameDelay] gives for one of the five speeds. *)
Definition knownDelay (delay : Q) : Prop :=
  exists speed, In speed speeds /\ delay = frameDelay speed.

(** The speed is one of the five, every armed timer has a handle of its own
    that was handed out already and a delay of one of the five speeds, and so
    has the stored handle. *)
Definition timerInvariant s : Prop :=
  In (playbackSpeed s) speeds /\
  Forall (fun t => (fst t < nextTimer s)%positive /\ knownDelay (snd t)) (timers s) /\
  NoDup (map fst (timers s)) /\
  (forall id, playbackTimeoutId s = Some id -> (id < nextTimer s)%positive).

End Invariants.

(** * A session on numbered frames

    The run the engine is exercised on: room for five frames, six frames
    captured, then replay.  Frames are their capture numbers. *)

Definition capturedSix : list (Event nat) :=
  map (AnimationFrame 640 480) [1; 2; 3; 4; 5; 6].

(** Recording, with frames 2 to 6 in the buffer. *)
Definition recorded : State nat := run capturedSix (mounted 5).

(** Replay just entered: frame 0 drawn, timer 1 armed. *)
Definition replaying : State nat := run [Issue ToggleMode] recorded.

(** Replay paused at once. *)
Definition pausedReplay : State nat := run [Issue TogglePause] replaying.

(** Paused, and the scrub bar clicked at its left end: the cursor is 0. *)
Definition atZero : State nat := run [Issue (SeekToFraction 0)] pausedReplay.

(** Point A stored at cursor 0, then the bar clicked in the middle. *)
Definition pointAAtZero : State nat :=
  run [Issue ToggleLoopPoint; Issue (SeekToFraction (1#2))] atZero.

(** Point A stored at cursor 1; two more frames drawn, the cursor is 3. *)
Definition pointASet : State nat :=
  run [Issue ToggleLoopPoint; TimerFired 1; TimerFired 2] replaying.

(** The loop [{1, 3}] is on, the cursor is 3. *)
Definition looping : State nat := run [Issue ToggleLoopPoint] pointASet.

(** Back to recording from the loop, one more frame captured. *)
Definition recordedAgain : State nat :=
  run [Issue ToggleMode; AnimationFrame 640 480 7] looping.


(** Replay entered before any frame was captured. *)
Definition emptyReplay : State nat := run [Issue ToggleMode] initial.

(** Replay entered by the mounted component after its first frame. *)
Definition firstReplay : State nat :=
  run [AnimationFrame 640 480 1; Issue ToggleMode] initial.

(** Point A stored at the cursor left behind the last frame (5); one more
    frame drawn, the cursor is 1. *)
Definition pointAPastEnd : State nat :=
  run [TimerFired 1; TimerFired 2; TimerFired 3; TimerFired 4;
       Issue ToggleLoopPoint; TimerFired 5] replaying.


(** A run without loop points: replay, a frame, a seek to the end, a speed
    change, a pause and a resume, back to recording, a frame, replay. *)
Definition plainRun : list (Event nat) :=
  [Issue ToggleMode; TimerFired 1; Issue (SeekToFraction 1); Issue CycleSpeed;
   Issue TogglePause; Issue TogglePause; Issue ToggleMode;
   AnimationFrame 640 480 7; Issue ToggleMode].

(** * Properties *)

Section Capture.

Context {ImageData : Type}.
Implicit Types (s : State ImageData) (fs : list ImageData).

Lemma readArray_writeArray_eq s loc xs :
  loc < length (heap s) -> readArray (writeArray loc xs s) loc = xs.
Proof.
  intros Hloc. unfold readArray, writeArray. simpl.
  now rewrite list_lookup_insert_eq.
Qed.

Lemma heap_writeArray_ne s loc loc' xs :
  loc <> loc' -> heap (writeArray loc xs s) !! loc' = heap s !! loc'.
Proof. intros Hne. unfold writeArray. simpl. now apply list_lookup_insert_ne. Qed.

Lemma length_heap_writeArray s loc xs :
  length (heap (writeArray loc xs s)) = length (heap s).
Proof. unfold writeArray. simpl. apply length_insert. Qed.

Lemma storeFrame_buffered s f :
  bufferAllocated s ->
  buffered (storeFrame f s) =
    if bufferSize s <? length (buffered s ++ [f])
    then drop 1 (buffered s ++ [f]) else buffered s ++ [f].
Proof.
  intros Hloc. unfold buffered, storeFrame. cbn zeta.
  change (frameBuffer (writeArray _ _ s)) with (frameBuffer s).
  change (bufferSize (writeArray _ _ s)) with (bufferSize s).
  rewrite readArray_writeArray_eq by exact Hloc.
  destruct (bufferSize s <? _).
  - change (frameBuffer (writeArray _ _ _)) with (frameBuffer s).
    rewrite readArray_writeArray_eq; [reflexivity|].
    now rewrite length_heap_writeArray.
  - change (frameBuffer (writeArray _ _ _)) with (frameBuffer s).
    now rewrite readArray_writeArray_eq.
Qed.

Lemma captureFrame_frame s w h f :
  videoCanvas (captureFrame w h f s) = videoCanvas s /\
  canvasContext (captureFrame w h f s) = canvasContext s /\
  liveVideo (captureFrame w h f s) = liveVideo s /\
  recording (captureFrame w h f s) = recording s /\
  playing (captureFrame w h f s) = playing s /\
  frameBuffer (captureFrame w h f s) = frameBuffer s /\
  bufferSize (captureFrame w h f s) = bufferSize s /\
  length (heap (captureFrame w h f s)) = length (heap s).
Proof.
  unfold captureFrame, storeFrame.
  repeat match goal with
         | |- context [if ?b then _ else _] => destruct b eqn:?
         end;
    cbn; rewrite ?length_insert; repeat split; congruence.
Qed.

Lemma captureFrame_buffered s w h f :
  capturing s -> (0 < w)%Z -> (0 < h)%Z ->
  buffered (captureFrame w h f s) = buffered (storeFrame f s).
Proof.
  intros (Hcanvas & Hctx & Hlive & Hrec & Hplay) Hw Hh.
  unfold captureFrame. rewrite Hcanvas, Hctx, Hlive, Hrec, Hplay. cbn [negb andb].
  replace (w >? 0)%Z with true by (symmetry; apply Z.gtb_lt; lia).
  replace (h >? 0)%Z with true by (symmetry; apply Z.gtb_lt; lia).
  reflexivity.
Qed.

Lemma captureFrame_capturing s w h f :
  capturing s -> capturing (captureFrame w h f s).
Proof.
  unfold capturing.
  destruct (captureFrame_frame s w h f) as (-> & -> & -> & -> & -> & _). tauto.
Qed.

Lemma captureFrame_allocated s w h f :
  bufferAllocated s -> bufferAllocated (captureFrame w h f s).
Proof.
  unfold bufferAllocated.
  destruct (captureFrame_frame s w h f) as (_ & _ & _ & _ & _ & -> & _ & ->). tauto.
Qed.

(** One stored frame: appended, and the head dropped when the array is full. *)
Lemma captureFrame_push s w h f :
  capturing s -> bufferAllocated s -> (0 < w)%Z -> (0 < h)%Z ->
  length (buffered s) <= bufferSize s ->
  buffered (captureFrame w h f s) =
    (if length (buffered s) <? bufferSize s
     then buffered s ++ [f] else drop 1 (buffered s ++ [f])) /\
  length (buffered (captureFrame w h f s)) <= bufferSize s.
Proof.
  intros Hcap Hloc Hw Hh Hlen.
  rewrite captureFrame_buffered, storeFrame_buffered by assumption.
  rewrite length_app. cbn [length].
  destruct (Nat.ltb_spec (bufferSize s) (length (buffered s) + 1)),
           (Nat.ltb_spec (length (buffered s)) (bufferSize s)); try lia.
  - split; [reflexivity|]. rewrite length_drop, length_app. cbn [length]. lia.
  - split; [reflexivity|]. rewrite length_app. cbn [length]. lia.
Qed.

Lemma captureAll_buffered w h fs : forall s,
  capturing s -> bufferAllocated s -> (0 < w)%Z -> (0 < h)%Z ->
  length (buffered s) <= bufferSize s ->
  buffered (captureAll w h fs s) =
    drop (length (buffered s ++ fs) - bufferSize s) (buffered s ++ fs).
Proof.
  induction fs as [|f fs IH]; intros s Hcap Hloc Hw Hh Hlen.
  - cbn [captureAll fold_left]. rewrite app_nil_r.
    replace (length (buffered s) - bufferSize s) with 0 by lia. reflexivity.
  - cbn [captureAll fold_left]. fold (captureAll w h fs (captureFrame w h f s)).
    destruct (captureFrame_push s w h f Hcap Hloc Hw Hh Hlen) as [Hpush Hlen'].
    assert (Hsize : bufferSize (captureFrame w h f s) = bufferSize s)
      by apply captureFrame_frame.
    rewrite IH; rewrite ?Hsize;
      auto using captureFrame_capturing, captureFrame_allocated.
    rewrite Hpush.
    destruct (Nat.ltb_spec (length (buffered s)) (bufferSize s)) as [Hlt|Hge].
    + rewrite <- app_assoc. reflexivity.
    + rewrite <- drop_app_le by (rewrite length_app; cbn [length]; lia).
      rewrite drop_drop, <- app_assoc. cbn [app].
      f_equal. rewrite length_drop, !length_app. cbn [length]. lia.
Qed.

(** C7. Frames captured into an empty buffer of capacity [bufferSize]: after
    [N] of them the buffer holds the last [min N bufferSize], in arrival
    order.  For any buffer within capacity, one more frame is appended, the
    head (the oldest) is dropped exactly when the buffer was full, and the
    length stays within capacity. *)
Theorem frameBuffer_bounded s w h fs :
  capturing s -> bufferAllocated s -> (0 < w)%Z -> (0 < h)%Z ->
  buffered s = [] ->
  buffered (captureAll w h fs s) = drop (length fs - bufferSize s) fs /\
  length (buffered (captureAll w h fs s)) = Nat.min (length fs) (bufferSize s) /\
  forall s' f,
    capturing s' -> bufferAllocated s' ->
    length (buffered s') <= bufferSize s' ->
    buffered (captureFrame w h f s') =
      (if length (buffered s') <? bufferSize s'
       then buffered s' ++ [f] else drop 1 (buffered s' ++ [f])) /\
    length (buffered (captureFrame w h f s')) <= bufferSize s'.
Proof.
  intros Hcap Hloc Hw Hh Hempty.
  assert (Hall : buffered (captureAll w h fs s) = drop (length fs - bufferSize s) fs).
  { rewrite captureAll_buffered by (rewrite ?Hempty; cbn; auto; lia).
    rewrite Hempty. reflexivity. }
  split; [exact Hall|]. split.
  - rewrite Hall, length_drop. lia.
  - intros s' f Hcap' Hloc' Hlen'. now apply captureFrame_push.
Qed.

End Capture.

Section Playback.

Context {ImageData : Type}.
Implicit Types (s : State ImageData).

Lemma sameSession_refl s : sameSession s s.
Proof. unfold sameSession. tauto. Qed.

Lemma sameSession_trans s1 s2 s3 :
  sameSession s1 s2 -> sameSession s2 s3 -> sameSession s1 s3.
Proof. unfold sameSession. intuition congruence. Qed.

Lemma sameSession_canPlay s s' : sameSession s s' -> canPlay s -> canPlay s'.
Proof. unfold sameSession, canPlay. intuition congruence. Qed.

Lemma sameSession_sequence s s' :
  sameSession s s' -> playbackSequence s' = playbackSequence s.
Proof.
  unfold sameSession, playbackSequence, readArray. intuition congruence.
Qed.

Lemma set_currentPlaybackIndex_same s :
  set_currentPlaybackIndex (currentPlaybackIndex s) s = s.
Proof. destruct s. reflexivity. Qed.

Lemma wrapCursor_eq s :
  wrapCursor s = set_currentPlaybackIndex (cursorTarget s) s.
Proof.
  unfold wrapCursor, cursorTarget, playbackSequence.
  destruct (abPointMode s), (abPointA s) as [a|], (abPointB s) as [b|];
    cbn zeta;
    try (destruct (currentPlaybackIndex s >=? b)%Z; cbn);
    repeat match goal with
           | |- context [if ?b then _ else _] => destruct b; cbn
           end;
    auto using set_currentPlaybackIndex_same, eq_sym.
Qed.

(** [playNextFrame] past its guard. *)
Lemma playNextFrame_unfold s :
  canPlay s ->
  playNextFrame s =
    let s1 :=
      set_progress (jsDiv (cursorTarget s) (length (playbackSequence s)))
        (set_currentPlaybackIndex (cursorTarget s) s) in
    match arrayGet (playbackSequence s) (cursorTarget s) with
    | None => Throw s1
    | Some frame =>
        Normal
          (set_playbackTimeoutId (Some (nextTimer s))
             (set_nextTimer (Pos.succ (nextTimer s))
                (set_timers (timers s ++ [(nextTimer s, frameDelay (playbackSpeed s))])
                   (set_currentPlaybackIndex (cursorTarget s + 1)
                      (set_displayed ((cursorTarget s, frame) :: displayed s) s1)))))
    end.
Proof.
  intros (Hcanvas & Hctx & Hplay & Hpause).
  unfold playNextFrame. rewrite Hcanvas, Hctx, Hplay, Hpause. cbn [negb orb].
  change (match abPointMode s with
          | true => _
          | false => _
          end) with (wrapCursor s).
  rewrite wrapCursor_eq. reflexivity.
Qed.

Lemma playNextFrame_skip s :
  videoCanvas s = false \/ canvasContext s = false \/
  playing s = false \/ paused s = true ->
  playNextFrame s = Normal s.
Proof.
  intros H. unfold playNextFrame.
  destruct (videoCanvas s), (canvasContext s), (playing s), (paused s);
    cbn; try reflexivity; intuition discriminate.
Qed.

Lemma playNextFrame_session s : sameSession s (stateOf (playNextFrame s)).
Proof.
  destruct (videoCanvas s) eqn:Hcanvas, (canvasContext s) eqn:Hctx,
           (playing s) eqn:Hplay, (paused s) eqn:Hpause;
    try (rewrite playNextFrame_skip by auto; apply sameSession_refl).
  rewrite playNextFrame_unfold by (unfold canPlay; auto).
  cbn zeta. destruct (arrayGet _ _); unfold sameSession; cbn; tauto.
Qed.

Lemma playNextFrame_deliver s frame :
  canPlay s ->
  arrayGet (playbackSequence s) (cursorTarget s) = Some frame ->
  exists s',
    playNextFrame s = Normal s' /\ sameSession s s' /\
    currentPlaybackIndex s' = (cursorTarget s + 1)%Z /\
    displayed s' = (cursorTarget s, frame) :: displayed s /\
    progress s' = jsDiv (cursorTarget s) (length (playbackSequence s)) /\
    timers s' = timers s ++ [(nextTimer s, frameDelay (playbackSpeed s))] /\
    playbackTimeoutId s' = Some (nextTimer s) /\
    statusText s' = statusText s.
Proof.
  intros Hcan Hframe.
  pose proof (playNextFrame_session s) as Hsame.
  rewrite playNextFrame_unfold in * by assumption.
  cbn zeta in *. rewrite Hframe in *.
  eexists. split; [reflexivity|]. split; [exact Hsame|].
  cbn. tauto.
Qed.

Lemma playNextFrame_throw s :
  canPlay s ->
  arrayGet (playbackSequence s) (cursorTarget s) = None ->
  exists s',
    playNextFrame s = Throw s' /\ sameSession s s' /\
    displayed s' = displayed s /\ timers s' = timers s.
Proof.
  intros Hcan Hframe.
  pose proof (playNextFrame_session s) as Hsame.
  rewrite playNextFrame_unfold in * by assumption.
  cbn zeta in *. rewrite Hframe in *.
  eexists. split; [reflexivity|]. split; [exact Hsame|].
  cbn. tauto.
Qed.

End Playback.

Section Arrays.

Context {ImageData : Type}.
Implicit Types (s : State ImageData).

Lemma keepsArrays_same s s' :
  heap s' = heap s -> frameBuffer s' = frameBuffer s -> keepsArrays s s'.
Proof. intros Hheap Hbuf. unfold keepsArrays. rewrite Hheap, Hbuf. auto. Qed.

Lemma keepsArrays_refl s : keepsArrays s s.
Proof. now apply keepsArrays_same. Qed.

Lemma keepsArrays_trans s1 s2 s3 :
  keepsArrays s1 s2 -> keepsArrays s2 s3 -> keepsArrays s1 s3.
Proof.
  intros (Hb1 & Hl1 & Hk1) (Hb2 & Hl2 & Hk2). split; [|split].
  - congruence.
  - lia.
  - intros loc Hloc Hne. rewrite Hk2, Hk1; auto; [lia | congruence].
Qed.

Lemma sameSession_keepsArrays s s' : sameSession s s' -> keepsArrays s s'.
Proof. unfold sameSession. intros H. apply keepsArrays_same; tauto. Qed.

Lemma playNextFrame_keeps s : keepsArrays s (stateOf (playNextFrame s)).
Proof. apply sameSession_keepsArrays, playNextFrame_session. Qed.

Lemma storeFrame_keeps s f : keepsArrays s (storeFrame f s).
Proof.
  unfold storeFrame, writeArray, keepsArrays. cbn zeta.
  destruct (_ <? _); cbn; rewrite ?length_insert;
    (split; [reflexivity | split; [lia|]]);
    intros loc Hloc Hne; rewrite ?list_lookup_insert_ne by auto; reflexivity.
Qed.

Lemma captureFrame_keeps s w h f : keepsArrays s (captureFrame w h f s).
Proof.
  unfold captureFrame, requestAnimationFrame.
  destruct (negb (videoCanvas s)); [apply keepsArrays_refl|].
  destruct (recording s && negb (playing s) && liveVideo s);
    [|now apply keepsArrays_same].
  destruct ((w >? 0)%Z && (h >? 0)%Z); [|now apply keepsArrays_same].
  destruct (canvasContext s); [|now apply keepsArrays_same].
  eapply keepsArrays_trans; [apply (storeFrame_keeps s f)|].
  now apply keepsArrays_same.
Qed.

Lemma allocArray_keeps s xs : keepsArrays s (snd (allocArray xs s)).
Proof.
  unfold allocArray, keepsArrays. cbn. split; [reflexivity | split].
  - rewrite length_app. lia.
  - intros loc Hloc _. now apply lookup_app_l.
Qed.

Lemma startPlayback_keeps s : keepsArrays s (stateOf (startPlayback s)).
Proof.
  unfold startPlayback.
  destruct (_ =? 0); [apply keepsArrays_refl|].
  cbn [allocArray].
  match goal with
  | |- context [playNextFrame ?s0] =>
      eapply keepsArrays_trans with (s2 := s0);
        [apply (allocArray_keeps s (readArray s (frameBuffer s)))|];
      pose proof (playNextFrame_keeps s0) as Hplay;
      destruct (playNextFrame s0); cbn in *
  end.
  - eapply keepsArrays_trans; [exact Hplay|]. now apply keepsArrays_same.
  - exact Hplay.
Qed.

Lemma toggleMode_keeps s : keepsArrays s (stateOf (toggleMode s)).
Proof.
  unfold toggleMode. cbn zeta.
  match goal with
  | |- context [startPlayback ?s0] =>
      assert (Hs0 : keepsArrays s s0)
        by (destruct (recording s); now apply keepsArrays_same);
      destruct (playing s0);
        [eapply keepsArrays_trans; [exact Hs0|apply startPlayback_keeps]|]
  end.
  destruct (playbackTimeoutId _); cbn; destruct (recording s);
    now apply keepsArrays_same.
Qed.

Lemma replayNow_keeps s : keepsArrays s (stateOf (replayNow s)).
Proof.
  unfold replayNow. destruct (playing s && negb (paused s)); [|apply keepsArrays_refl].
  eapply keepsArrays_trans; [|apply playNextFrame_keeps].
  destruct (playbackTimeoutId s); now apply keepsArrays_same.
Qed.

Lemma execute_keeps c s : keepsArrays s (stateOf (execute c s)).
Proof.
  destruct c as [| | |f|]; cbn [execute].
  - apply toggleMode_keeps.
  - unfold togglePause. cbn zeta.
    destruct (_ && _); [|now apply keepsArrays_same].
    eapply keepsArrays_trans; [|apply playNextFrame_keeps].
    now apply keepsArrays_same.
  - unfold cycleSpeed, adjustSpeed. cbn zeta.
    destruct (arrayGet speeds _); [|apply keepsArrays_refl].
    eapply keepsArrays_trans; [|apply replayNow_keeps].
    now apply keepsArrays_same.
  - unfold handleProgressClick.
    destruct (_ || _); [apply keepsArrays_refl|]. cbn zeta.
    eapply keepsArrays_trans; [|apply replayNow_keeps].
    now apply keepsArrays_same.
  - unfold toggleABPoints. cbn [stateOf].
    destruct (falsy (abPointA s)); [now apply keepsArrays_same|].
    destruct (falsy (abPointB s)); [|now apply keepsArrays_same].
    cbn zeta. destruct (jsGt _ _); now apply keepsArrays_same.
Qed.

Lemma handle_keeps e s : keepsArrays s (stateOf (handle e s)).
Proof.
  destruct e as [c|w h f|id]; cbn [handle].
  - apply execute_keeps.
  - apply captureFrame_keeps.
  - destruct (isArmed id s); [|apply keepsArrays_refl].
    eapply keepsArrays_trans; [|apply playNextFrame_keeps].
    now apply keepsArrays_same.
Qed.

Lemma run_keeps es : forall s, keepsArrays s (run es s).
Proof.
  induction es as [|e es IH]; intros s; cbn [run fold_left].
  - apply keepsArrays_refl.
  - eapply keepsArrays_trans; [apply handle_keeps|apply IH].
Qed.

End Arrays.

Section ModeSwitch.

Context {ImageData : Type}.
Implicit Types (s : State ImageData).

Lemma toggleMode_recording s :
  recording s = true -> toggleMode s = startPlayback (flipToReplay s).
Proof. intros Hrec. unfold toggleMode. cbn. rewrite Hrec. reflexivity. Qed.

Lemma toggleMode_replaying s :
  recording s = false ->
  toggleMode s =
    let s1 :=
      set_progress (Num (-1))
        (set_paused false (set_playing false (set_recording true s))) in
    match playbackTimeoutId s with
    | Some id => Normal (set_playbackTimeoutId None (clearTimeout id s1))
    | None => Normal s1
    end.
Proof. intros Hrec. unfold toggleMode. cbn. rewrite Hrec. reflexivity. Qed.

Lemma startPlayback_empty s : buffered s = [] -> startPlayback s = Normal s.
Proof. unfold startPlayback, buffered. now intros ->. Qed.

Lemma startPlayback_nonempty s :
  buffered s <> [] ->
  startPlayback s =
    andThen (playNextFrame (takeSnapshot s))
      (fun s => Normal (set_statusText "回放中" s)).
Proof.
  unfold startPlayback, takeSnapshot, buffered. intros Hne.
  destruct (readArray s (frameBuffer s)); [congruence | reflexivity].
Qed.

Lemma takeSnapshot_sequence s : playbackSequence (takeSnapshot s) = buffered s.
Proof.
  unfold playbackSequence, takeSnapshot, readArray. cbn.
  now rewrite list_lookup_middle.
Qed.

Lemma isArmed_clearTimeout id s : isArmed id (clearTimeout id s) = false.
Proof.
  unfold isArmed, clearTimeout. cbn.
  induction (timers s) as [|[id' delay] ts IH]; [reflexivity|].
  cbn. destruct (Pos.eqb id' id) eqn:Heq; cbn; [exact IH|].
  now rewrite Heq.
Qed.

(** C1 (amended).  [toggleMode] while recording with an empty buffer ends
    normally and only flips the mode flags: [recording] becomes [false],
    [playing] becomes [true], [paused] is cleared.  No replay session starts:
    the arrays, the playback sequence, the cursor, the timers and the canvas
    are as they were. *)
Theorem toggleMode_empty_buffer s :
  recording s = true -> buffered s = [] ->
  toggleMode s = Normal (flipToReplay s) /\
  recording (flipToReplay s) = false /\ playing (flipToReplay s) = true /\
  paused (flipToReplay s) = false /\
  heap (flipToReplay s) = heap s /\
  frameBuffer (flipToReplay s) = frameBuffer s /\
  playbackFrames (flipToReplay s) = playbackFrames s /\
  currentPlaybackIndex (flipToReplay s) = currentPlaybackIndex s /\
  playbackTimeoutId (flipToReplay s) = playbackTimeoutId s /\
  timers (flipToReplay s) = timers s /\
  displayed (flipToReplay s) = displayed s.
Proof.
  intros Hrec Hempty. split.
  - rewrite toggleMode_recording by exact Hrec.
    now apply startPlayback_empty.
  - cbn. tauto.
Qed.

Lemma toggleMode_enter s :
  recording s = true -> buffered s <> [] ->
  toggleMode s =
    andThen (playNextFrame (takeSnapshot (flipToReplay s)))
      (fun s => Normal (set_statusText "回放中" s)).
Proof.
  intros Hrec Hne. rewrite toggleMode_recording by exact Hrec.
  now apply startPlayback_nonempty.
Qed.

Lemma toggleMode_enter_session s :
  recording s = true -> buffered s <> [] ->
  sameSession (takeSnapshot (flipToReplay s)) (stateOf (toggleMode s)).
Proof.
  intros Hrec Hne. rewrite toggleMode_enter by assumption.
  pose proof (playNextFrame_session (takeSnapshot (flipToReplay s))) as Hsame.
  destruct (playNextFrame _); cbn in *; exact Hsame.
Qed.

Lemma storeFrames_keeps fs : forall s,
  keepsArrays s (fold_left (fun s f => storeFrame f s) fs s).
Proof.
  induction fs as [|f fs IH]; intros s; cbn [fold_left].
  - apply keepsArrays_refl.
  - eapply keepsArrays_trans; [apply storeFrame_keeps|apply IH].
Qed.

(** C3 (amended).  [toggleMode] clears [paused] and leaves the loop points and
    the buffer as they were, in both directions.  Entering replay with frames
    in the buffer, it copies the buffer into a new array that becomes the
    playback sequence, puts the cursor at 0 and plays one frame at once: with
    a canvas and no loop, frame 0 is drawn and the cursor is 1 when
    [toggleMode] returns.  Leaving replay, it cancels the timer whose handle
    is stored and forgets the handle. *)
Theorem toggleMode_session_state s :
  bufferAllocated s ->
  (recording s = true -> buffered s <> [] ->
   let s' := stateOf (toggleMode s) in
   recording s' = false /\ playing s' = true /\ paused s' = false /\
   playbackFrames s' = length (heap s) /\
   playbackSequence s' = buffered s /\
   buffered s' = buffered s /\
   abPointA s' = abPointA s /\ abPointB s' = abPointB s /\
   abPointMode s' = abPointMode s /\
   (videoCanvas s = true -> canvasContext s = true -> abPointMode s = false ->
    exists frame,
      buffered s !! 0 = Some frame /\
      toggleMode s = Normal s' /\
      displayed s' = (0%Z, frame) :: displayed s /\
      currentPlaybackIndex s' = 1%Z)) /\
  (recording s = false ->
   exists s',
     toggleMode s = Normal s' /\
     recording s' = true /\ playing s' = false /\ paused s' = false /\
     playbackTimeoutId s' = None /\
     (forall id, playbackTimeoutId s = Some id -> isArmed id s' = false) /\
     abPointA s' = abPointA s /\ abPointB s' = abPointB s /\
     abPointMode s' = abPointMode s /\
     heap s' = heap s /\ frameBuffer s' = frameBuffer s).
Proof.
  intros Hloc. split.
  - intros Hrec Hne s'.
    pose proof (toggleMode_enter_session s Hrec Hne) as Hsame. fold s' in Hsame.
    pose proof (sameSession_sequence _ _ Hsame) as Hseq.
    rewrite takeSnapshot_sequence in Hseq. change (buffered (flipToReplay s)) with (buffered s) in Hseq.
    destruct Hsame as (Hr & Hp & Hpa & _ & HA & HB & HM & Hfb & _ & Hpf & _ & Hvc & Hcc & Hheap).
    cbn in Hr, Hp, Hpa, HA, HB, HM, Hfb, Hpf, Hvc, Hcc, Hheap.
    repeat (split; [assumption|]).
    split.
    { unfold buffered, readArray. rewrite Hfb, Hheap.
      now rewrite lookup_app_l by exact Hloc. }
    repeat (split; [assumption|]).
    intros Hcanvas Hctx Hmode.
    destruct (buffered s) as [|frame rest] eqn:Hbuf; [congruence|].
    exists frame. split; [reflexivity|].
    assert (Hcan : canPlay (takeSnapshot (flipToReplay s)))
      by (unfold canPlay; cbn; auto).
    assert (Htarget : cursorTarget (takeSnapshot (flipToReplay s)) = 0%Z).
    { unfold cursorTarget. cbn. rewrite Hmode. now destruct (_ >=? _)%Z. }
    destruct (playNextFrame_deliver (takeSnapshot (flipToReplay s)) frame Hcan)
      as (s1 & Hstep & _ & Hidx & Hshown & _).
    { rewrite Htarget, takeSnapshot_sequence.
      change (buffered (flipToReplay s)) with (buffered s). now rewrite Hbuf. }
    subst s'. rewrite toggleMode_enter by (rewrite ?Hbuf; auto; congruence).
    rewrite Hstep. cbn. rewrite Hidx, Hshown, Htarget. auto.
  - intros Hrec. rewrite toggleMode_replaying by exact Hrec. cbn zeta.
    destruct (playbackTimeoutId s) as [id|] eqn:Hid;
      (eexists; split; [reflexivity|]); cbn; rewrite ?Hid;
      repeat (split; [reflexivity|]); (split; [|tauto]).
    + intros id' [= <-].
      apply (isArmed_clearTimeout id
               (set_progress (Num (-1))
                  (set_paused false (set_playing false (set_recording true s))))).
    + intros id' [=].
Qed.

(** C9.  The array that [toggleMode] hands to playback when it enters replay
    is a new object holding the buffer's frames, oldest first.  Whatever
    happens afterwards (frames stored in the buffer, commands, timers) leaves
    that object's length and contents as they were. *)
Theorem snapshot_independent s :
  bufferAllocated s -> recording s = true -> buffered s <> [] ->
  let s1 := stateOf (toggleMode s) in
  playbackSequence s1 = buffered s /\
  playbackFrames s1 <> frameBuffer s1 /\
  (forall fs,
     readArray (fold_left (fun s f => storeFrame f s) fs s1) (playbackFrames s1) =
       buffered s) /\
  (forall es, readArray (run es s1) (playbackFrames s1) = buffered s).
Proof.
  intros Hloc Hrec Hne s1.
  pose proof (toggleMode_enter_session s Hrec Hne) as Hsame. fold s1 in Hsame.
  pose proof (sameSession_sequence _ _ Hsame) as Hseq.
  rewrite takeSnapshot_sequence in Hseq.
  change (buffered (flipToReplay s)) with (buffered s) in Hseq.
  destruct Hsame as (_ & _ & _ & _ & _ & _ & _ & Hfb & _ & Hpf & _ & _ & _ & Hheap).
  cbn in Hfb, Hpf, Hheap. unfold bufferAllocated in Hloc.
  assert (Hfresh : playbackFrames s1 <> frameBuffer s1) by lia.
  assert (Hin : playbackFrames s1 < length (heap s1))
    by (rewrite Hpf, Hheap, length_app; cbn; lia).
  assert (Hkeep : forall s2, keepsArrays s1 s2 ->
            readArray s2 (playbackFrames s1) = buffered s).
  { intros s2 (_ & _ & Hk). rewrite <- Hseq.
    unfold playbackSequence, readArray. now rewrite Hk. }
  repeat split; auto using storeFrames_keeps, run_keeps.
Qed.

End ModeSwitch.

Section LoopPoints.

Context {ImageData : Type}.
Implicit Types (s : State ImageData).

Lemma toggleABPoints_first s :
  falsy (abPointA s) = true ->
  toggleABPoints s =
    set_statusText "设置A点" (set_abPointA (Some (currentPlaybackIndex s)) s).
Proof. intros HA. unfold toggleABPoints. now rewrite HA. Qed.

Lemma toggleABPoints_second s a :
  abPointA s = Some a -> a <> 0%Z -> falsy (abPointB s) = true ->
  toggleABPoints s =
    set_statusText "AB循环中"
      (set_abPointMode true
         (set_abPointB
            (Some (if (a >? currentPlaybackIndex s)%Z
                   then Z.of_nat (length (playbackSequence s)) - 1
                   else currentPlaybackIndex s)%Z) s)).
Proof.
  intros HA Ha HB. unfold toggleABPoints, playbackSequence.
  rewrite HA, HB. cbn [jsGt].
  destruct a; [congruence| |]; cbn [falsy]; now destruct (_ >? _)%Z.
Qed.

Lemma toggleABPoints_third s :
  falsy (abPointA s) = false -> falsy (abPointB s) = false ->
  toggleABPoints s =
    set_statusText "Recalling"
      (set_abPointMode false (set_abPointB None (set_abPointA None s))).
Proof. intros HA HB. unfold toggleABPoints. now rewrite HA, HB. Qed.

(** Away from 0 the three calls go through the three phases. *)
Lemma toggleABPoints_cycle s i j k :
  falsy (abPointA s) = true -> falsy (abPointB s) = true ->
  currentPlaybackIndex s = i -> i <> 0%Z ->
  let b := (if (i >? j)%Z
            then Z.of_nat (length (playbackSequence s)) - 1 else j)%Z in
  b <> 0%Z ->
  let s1 := toggleABPoints s in
  let s2 := toggleABPoints (set_currentPlaybackIndex j s1) in
  let s3 := toggleABPoints (set_currentPlaybackIndex k s2) in
  (abPointA s1 = Some i /\ abPointB s1 = abPointB s /\
   abPointMode s1 = abPointMode s) /\
  (abPointA s2 = Some i /\ abPointB s2 = Some b /\ abPointMode s2 = true) /\
  (abPointA s3 = None /\ abPointB s3 = None /\ abPointMode s3 = false).
Proof.
  intros HA HB Hidx Hi b Hb s1 s2 s3. subst s3 s2 s1.
  rewrite (toggleABPoints_first s HA), Hidx.
  rewrite (toggleABPoints_second _ i) by (cbn; auto).
  change (if (i >? _)%Z then _ else _) with b.
  rewrite toggleABPoints_third;
    [cbn; tauto | now destruct i | now destruct b].
Qed.

(** C4 (the code at the failing input).  With no point A and the cursor at 0,
    the first [toggleABPoints] stores [a = 0]; the next one, wherever the
    cursor [i] is by then, stores [a = i] again and neither sets point B nor
    turns the loop on. *)
Theorem toggleABPoints_first_point_at_zero s i :
  falsy (abPointA s) = true -> currentPlaybackIndex s = 0%Z ->
  let s1 := toggleABPoints s in
  let s2 := toggleABPoints (set_currentPlaybackIndex i s1) in
  abPointA s1 = Some 0%Z /\ abPointB s1 = abPointB s /\
  abPointMode s1 = abPointMode s /\
  abPointA s2 = Some i /\ abPointB s2 = abPointB s /\
  abPointMode s2 = abPointMode s.
Proof.
  intros HA Hidx s1 s2. subst s2 s1.
  rewrite (toggleABPoints_first s HA), Hidx.
  rewrite toggleABPoints_first by reflexivity.
  cbn. tauto.
Qed.

(** C8 (the code at the second call).  With point A stored and point B not
    yet set, [toggleABPoints] sets [b] to the last index of the sequence when
    [a] is past the cursor and to the cursor otherwise, and turns the loop on;
    but it does so only for [a <> 0]: a stored [a = 0] is taken for no point
    A, and the call stores point A again. *)
Theorem toggleABPoints_second_call s a :
  abPointA s = Some a -> falsy (abPointB s) = true ->
  let s' := toggleABPoints s in
  if (a =? 0)%Z then
    abPointA s' = Some (currentPlaybackIndex s) /\
    abPointB s' = abPointB s /\ abPointMode s' = abPointMode s
  else
    abPointA s' = Some a /\
    abPointB s' =
      Some (if (a >? currentPlaybackIndex s)%Z
            then Z.of_nat (length (playbackSequence s)) - 1
            else currentPlaybackIndex s)%Z /\
    abPointMode s' = true.
Proof.
  intros HA HB s'. subst s'.
  destruct (Z.eqb_spec a 0) as [->|Hne].
  - rewrite toggleABPoints_first by now rewrite HA. cbn. tauto.
  - rewrite (toggleABPoints_second s a) by assumption. cbn. tauto.
Qed.

Lemma cursorTarget_loop s a b :
  abPointMode s = true -> abPointA s = Some a -> abPointB s = Some b ->
  (a <= b)%Z ->
  cursorTarget s = loopEntry a b (currentPlaybackIndex s).
Proof.
  intros HM HA HB Hab. unfold cursorTarget, loopEntry. rewrite HM, HA, HB.
  cbn zeta. destruct (_ >=? b)%Z; [|reflexivity].
  now rewrite (proj2 (Z.ltb_ge a a)) by lia.
Qed.

Lemma loopEntry_range a b i :
  (a <= b)%Z ->
  (a <= loopEntry a b i)%Z /\ (a < b -> loopEntry a b i < b)%Z /\
  (a = b -> loopEntry a b i = a).
Proof.
  intros Hab. unfold loopEntry. rewrite Z.geb_leb.
  destruct (Z.leb_spec b i), (Z.ltb_spec i a); lia.
Qed.

Lemma loopIndex_0 a b i : (a <= b)%Z -> loopIndex a b i 0 = loopEntry a b i.
Proof.
  intros Hab. unfold loopIndex.
  destruct (loopEntry_range a b i Hab) as (Hlo & Hhi & Heq).
  destruct (Z.ltb_spec a b).
  - rewrite Z.add_0_r, Z.mod_small by lia. lia.
  - symmetry. apply Heq. lia.
Qed.

Lemma loopIndex_S a b i k :
  (a <= b)%Z ->
  loopIndex a b i (S k) = loopIndex a b (loopEntry a b i + 1) k.
Proof.
  intros Hab. unfold loopIndex.
  destruct (loopEntry_range a b i Hab) as (Hlo & Hhi & _).
  destruct (Z.ltb_spec a b) as [Hlt|]; [|reflexivity].
  specialize (Hhi Hlt). f_equal.
  unfold loopEntry at 2. rewrite Z.geb_leb.
  destruct (Z.leb_spec b (loopEntry a b i + 1)).
  - replace (loopEntry a b i - a + Z.of_nat (S k))%Z
      with (Z.of_nat k + 1 * (b - a))%Z by lia.
    rewrite Z_mod_plus_full. f_equal. lia.
  - rewrite (proj2 (Z.ltb_ge _ _)) by lia. f_equal. lia.
Qed.



Lemma arrayGet_in_range {A} (xs : list A) (i : Z) :
  (0 <= i < Z.of_nat (length xs))%Z -> exists x, arrayGet xs i = Some x.
Proof.
  intros Hi. unfold arrayGet. rewrite (proj2 (Z.ltb_ge i 0)) by lia.
  apply lookup_lt_is_Some. lia.
Qed.

Lemma playFrames_loop n : forall s a b,
  canPlay s ->
  abPointMode s = true -> abPointA s = Some a -> abPointB s = Some b ->
  (0 <= a <= b)%Z ->
  (a < Z.of_nat (length (playbackSequence s)))%Z ->
  (b <= Z.of_nat (length (playbackSequence s)))%Z ->
  exists s',
    playFrames n s = Normal s' /\ sameSession s s' /\
    deliveredIndices s' =
      deliveredIndices s ++ map (loopIndex a b (currentPlaybackIndex s)) (seq 0 n).
Proof.
  induction n as [|n IH]; intros s a b Hcan HM HA HB Hab Ha Hb.
  - exists s. cbn. rewrite app_nil_r. auto using sameSession_refl.
  - pose proof (cursorTarget_loop s a b HM HA HB ltac:(lia)) as Htarget.
    destruct (loopEntry_range a b (currentPlaybackIndex s) ltac:(lia))
      as (Hlo & Hhi & Heq).
    destruct (arrayGet_in_range (playbackSequence s) (cursorTarget s))
      as [frame Hframe]; [lia|].
    destruct (playNextFrame_deliver s frame Hcan Hframe)
      as (s1 & Hstep & Hsame & Hidx & Hshown & _).
    pose proof Hsame as
      (_ & _ & _ & _ & HA1 & HB1 & HM1 & _).
    destruct (IH s1 a b) as (s' & Hrun & Hsame' & Hout);
      rewrite ?(sameSession_sequence _ _ Hsame);
      eauto using sameSession_canPlay; try congruence.
    exists s'. cbn [playFrames]. rewrite Hstep. cbn [andThen].
    split; [exact Hrun|]. split; [eauto using sameSession_trans|].
    rewrite Hout. unfold deliveredIndices. rewrite Hshown, Hidx, Htarget.
    cbn [map fst rev seq]. rewrite <- app_assoc. f_equal. cbn [app]. f_equal.
    + now rewrite loopIndex_0 by lia.
    + rewrite <- seq_shift, map_map. apply map_ext.
      intros k. now rewrite loopIndex_S by lia.
Qed.


End LoopPoints.

Section Cursor.

Context {ImageData : Type}.
Implicit Types (s : State ImageData).


Lemma replayNow_idle s :
  playing s = false \/ paused s = true -> replayNow s = Normal s.
Proof.
  intros H. unfold replayNow.
  destruct (playing s), (paused s); cbn; try reflexivity; intuition discriminate.
Qed.

Lemma replayNow_running s :
  playing s = true -> paused s = false ->
  replayNow s = playNextFrame (cancelStored s).
Proof. intros Hplay Hpause. unfold replayNow. now rewrite Hplay, Hpause. Qed.

Lemma cancelStored_session s : sameSession s (cancelStored s).
Proof.
  unfold cancelStored, sameSession.
  destruct (playbackTimeoutId s); cbn; tauto.
Qed.


Lemma Qfloor_fraction (f : Q) (n : nat) :
  (0 <= f)%Q -> (f <= 1)%Q ->
  (0 <= Qfloor (f * inject_Z (Z.of_nat n)) <= Z.of_nat n)%Z.
Proof.
  intros Hlo Hhi.
  assert (Hn : (0 <= inject_Z (Z.of_nat n))%Q)
    by (change 0%Q with (inject_Z 0); rewrite <- Zle_Qle; lia).
  split.
  - change 0%Z with (Qfloor 0). apply Qfloor_resp_le.
    now apply Qmult_le_0_compat.
  - rewrite <- (Qfloor_Z (Z.of_nat n)) at 2. apply Qfloor_resp_le.
    rewrite <- (Qmult_1_l (inject_Z (Z.of_nat n))) at 2.
    now apply Qmult_le_compat_r.
Qed.

Lemma cursorTarget_plain s :
  abPointMode s = false ->
  cursorTarget s =
    if (currentPlaybackIndex s >=? Z.of_nat (length (playbackSequence s)))%Z
    then 0%Z else currentPlaybackIndex s.
Proof. intros HM. unfold cursorTarget. now rewrite HM. Qed.

(** A step without a loop, from a cursor in bounds: it draws a frame of the
    sequence and leaves the cursor in bounds. *)
Lemma playNextFrame_plain s :
  canPlay s -> abPointMode s = false -> playbackSequence s <> [] ->
  cursorInBounds s ->
  exists s' j frame,
    playNextFrame s = Normal s' /\ sameSession s s' /\
    j = (if (currentPlaybackIndex s =? Z.of_nat (length (playbackSequence s)))%Z
         then 0 else currentPlaybackIndex s)%Z /\
    (0 <= j < Z.of_nat (length (playbackSequence s)))%Z /\
    arrayGet (playbackSequence s) j = Some frame /\
    displayed s' = (j, frame) :: displayed s /\
    currentPlaybackIndex s' = (j + 1)%Z /\
    cursorInBounds s'.
Proof.
  intros Hcan HM Hne Hin. unfold cursorInBounds in *.
  assert (Hlen : 0 < length (playbackSequence s))
    by (destruct (playbackSequence s); [congruence | cbn; lia]).
  pose proof (cursorTarget_plain s HM) as Htarget.
  rewrite Z.geb_leb in Htarget.
  set (j := (if (currentPlaybackIndex s =? Z.of_nat (length (playbackSequence s)))%Z
             then 0 else currentPlaybackIndex s)%Z).
  assert (Hj : cursorTarget s = j /\
               (0 <= j < Z.of_nat (length (playbackSequence s)))%Z).
  { subst j. rewrite Htarget.
    destruct (Z.leb_spec (Z.of_nat (length (playbackSequence s))) (currentPlaybackIndex s)),
             (Z.eqb_spec (currentPlaybackIndex s) (Z.of_nat (length (playbackSequence s))));
      lia. }
  destruct Hj as [Hj Hrange].
  destruct (arrayGet_in_range (playbackSequence s) j Hrange) as [frame Hframe].
  destruct (playNextFrame_deliver s frame Hcan) as (s' & Hstep & Hsame & Hidx & Hshown & _);
    [now rewrite Hj|].
  exists s', j, frame. rewrite Hj in *.
  repeat (split; [assumption || reflexivity|]).
  rewrite (sameSession_sequence _ _ Hsame), Hidx. lia.
Qed.


End Cursor.

Section Commands.

Context {ImageData : Type}.
Implicit Types (s : State ImageData).

Lemma next_speed (x : Q) :
  exists speed,
    arrayGet speeds (Z.rem (indexOf x speeds + 1) (Z.of_nat (length speeds))) =
      Some speed /\
    In speed speeds.
Proof.
  unfold indexOf, speeds. cbn [indexOfFrom length].
  repeat match goal with
         | |- context [Qeq_bool ?y x] => destruct (Qeq_bool y x)
         end;
    (eexists; split; [reflexivity | cbn; tauto]).
Qed.

Lemma toggleABPoints_frame s :
  displayed (toggleABPoints s) = displayed s /\
  timers (toggleABPoints s) = timers s /\
  heap (toggleABPoints s) = heap s /\
  playing (toggleABPoints s) = playing s /\
  recording (toggleABPoints s) = recording s.
Proof.
  unfold toggleABPoints.
  destruct (falsy (abPointA s)); [cbn; tauto|].
  destruct (falsy (abPointB s)); [|cbn; tauto].
  cbn zeta. destruct (jsGt _ _); cbn; tauto.
Qed.


End Commands.

Section Delay.

Local Open Scope Q_scope.

Lemma frame_interval_antitone m1 m2 :
  0 < m1 -> m1 < m2 ->
  1000 / (inject_Z FRAME_RATE * m2) <= 1000 / (inject_Z FRAME_RATE * m1).
Proof.
  intros Hpos Hlt. unfold Qdiv.
  assert (Hrate : 0 < inject_Z FRAME_RATE) by reflexivity.
  assert (H1 : 0 < inject_Z FRAME_RATE * m1)
    by (apply Qmult_lt_0_compat; assumption).
  assert (H2 : inject_Z FRAME_RATE * m1 < inject_Z FRAME_RATE * m2)
    by (apply Qmult_lt_l; assumption).
  assert (H3 : 0 < inject_Z FRAME_RATE * m2)
    by (now apply Qlt_trans with (inject_Z FRAME_RATE * m1)).
  apply Qmult_le_l; [reflexivity|].
  apply Qlt_le_weak.
  exact (proj1 (Qinv_lt_contravar _ _ H1 H3) H2).
Qed.

(** The delay written with the base interval [1000 / FRAME_RATE]. *)
Lemma frameDelay_base m :
  0 < m -> frameDelay m == Qmax 16 ((1000 / inject_Z FRAME_RATE) / m).
Proof.
  intros Hm. unfold frameDelay.
  assert (E : 1000 / (inject_Z FRAME_RATE * m) == 1000 / inject_Z FRAME_RATE / m).
  { field. split; [discriminate | lra]. }
  now rewrite E.
Qed.

(** C10.  For speeds [0 < m1 < m2] the delay at [m1] is at least the delay at
    [m2], both are at least 16 ms, and the delay is the larger of 16 and the
    base interval [1000 / FRAME_RATE] divided by the speed. *)
Theorem frameDelay_monotone m1 m2 :
  0 < m1 -> m1 < m2 ->
  frameDelay m2 <= frameDelay m1 /\
  16 <= frameDelay m1 /\ 16 <= frameDelay m2 /\
  frameDelay m1 == Qmax 16 ((1000 / inject_Z FRAME_RATE) / m1) /\
  frameDelay m2 == Qmax 16 ((1000 / inject_Z FRAME_RATE) / m2).
Proof.
  intros Hpos Hlt.
  assert (Hpos2 : 0 < m2) by (now apply Qlt_trans with m1).
  repeat split; try apply Q.le_max_l; try now apply frameDelay_base.
  unfold frameDelay. now apply Q.max_le_compat_l, frame_interval_antitone.
Qed.

(** The same holds when every arithmetic result is rounded, for any rounding
    that keeps the order and does not take a positive number to 0. *)
Lemma frameDelayWith_monotone (rnd : Q -> Q) m1 m2 :
  (forall x y, x <= y -> rnd x <= rnd y) ->
  (forall x, 0 < x -> 0 < rnd x) ->
  0 < m1 -> m1 < m2 ->
  frameDelayWith rnd m2 <= frameDelayWith rnd m1 /\
  16 <= frameDelayWith rnd m1 /\ 16 <= frameDelayWith rnd m2.
Proof.
  intros Hmono Hkeep Hpos Hlt.
  repeat split; try apply Q.le_max_l.
  unfold frameDelayWith. apply Q.max_le_compat_l, Hmono.
  assert (Hrate : 0 < inject_Z FRAME_RATE) by reflexivity.
  assert (H1 : 0 < rnd (inject_Z FRAME_RATE * m1))
    by (apply Hkeep, Qmult_lt_0_compat; assumption).
  assert (H2 : rnd (inject_Z FRAME_RATE * m1) <= rnd (inject_Z FRAME_RATE * m2))
    by (apply Hmono, Qlt_le_weak, Qmult_lt_l; assumption).
  apply Qle_shift_div_l; [exact H1|].
  apply Qle_trans with (1000 / rnd (inject_Z FRAME_RATE * m2)
                        * rnd (inject_Z FRAME_RATE * m2)).
  - apply Qmult_le_l; [|exact H2].
    apply Qlt_shift_div_l; [|reflexivity].
    now apply Qlt_le_trans with (rnd (inject_Z FRAME_RATE * m1)).
  - apply Qle_lteq. right. field.
    intros E. rewrite E in H2. now apply (Qlt_not_le _ _ H1).
Qed.

Lemma frameDelayWith_exact m : frameDelayWith (fun x => x) m = frameDelay m.
Proof. reflexivity. Qed.

End Delay.

(** * The properties on the numbered session *)

(** Six frames into room for five: frames 2 to 6 stay. *)
Lemma frameBuffer_bounded_witness :
  capturing (mounted (ImageData:=nat) 5) /\ bufferAllocated (mounted (ImageData:=nat) 5) /\
  (0 < 640)%Z /\ (0 < 480)%Z /\ buffered (mounted (ImageData:=nat) 5) = [] /\
  buffered (captureAll 640 480 [1; 2; 3; 4; 5; 6] (mounted 5)) = [2; 3; 4; 5; 6] /\
  length (buffered (captureAll 640 480 [1; 2; 3; 4; 5; 6] (mounted 5))) = 5.
Proof.
  assert (Hcap : capturing (mounted (ImageData:=nat) 5))
    by (unfold capturing; repeat split; (vm_compute; reflexivity)).
  assert (Hloc : bufferAllocated (mounted (ImageData:=nat) 5))
    by (unfold bufferAllocated; cbn; lia).
  assert (Hw : (0 < 640)%Z) by (vm_compute; reflexivity).
  assert (Hh : (0 < 480)%Z) by (vm_compute; reflexivity).
  assert (Hempty : buffered (mounted (ImageData:=nat) 5) = []) by (vm_compute; reflexivity).
  destruct (frameBuffer_bounded (mounted 5) 640 480 [1; 2; 3; 4; 5; 6]
              Hcap Hloc Hw Hh Hempty) as (Hall & Hlen & _).
  exact (conj Hcap (conj Hloc (conj Hw (conj Hh (conj Hempty (conj Hall Hlen)))))).
Defined.

(** Back to recording after the snapshot, frames 7 and 8 captured: the buffer
    moves on, the snapshot does not. *)
Lemma snapshot_independent_witness :
  bufferAllocated recorded /\ recording recorded = true /\ buffered recorded <> [] /\
  playbackSequence replaying = [2; 3; 4; 5; 6] /\
  buffered (run [Issue ToggleMode; AnimationFrame 640 480 7; AnimationFrame 640 480 8]
              replaying) = [4; 5; 6; 7; 8] /\
  readArray (run [Issue ToggleMode; AnimationFrame 640 480 7; AnimationFrame 640 480 8]
               replaying) (playbackFrames replaying) = [2; 3; 4; 5; 6].
Proof.
  assert (Hloc : bufferAllocated recorded) by (vm_compute; lia).
  assert (Hrec : recording recorded = true) by (vm_compute; reflexivity).
  assert (Hne : buffered recorded <> []) by (vm_compute; discriminate).
  destruct (snapshot_independent recorded Hloc Hrec Hne) as (Hseq & _ & _ & Hrun).
  refine (conj Hloc (conj Hrec (conj Hne (conj Hseq (conj _ _))))).
  - (vm_compute; reflexivity).
  - exact (Hrun [Issue ToggleMode; AnimationFrame 640 480 7; AnimationFrame 640 480 8]).
Defined.

(** Speeds 1/4 and 2. *)
Lemma frameDelay_monotone_witness :
  (0 < 1#4)%Q /\ (1#4 < 2)%Q /\
  (frameDelay 2 <= frameDelay (1#4))%Q /\
  (16 <= frameDelay (1#4))%Q /\ (16 <= frameDelay 2)%Q.
Proof.
  assert (Hpos : (0 < 1#4)%Q) by (vm_compute; reflexivity).
  assert (Hlt : (1#4 < 2)%Q) by (vm_compute; reflexivity).
  destruct (frameDelay_monotone (1#4) 2 Hpos Hlt) as (Hmono & H1 & H2 & _).
  exact (conj Hpos (conj Hlt (conj Hmono (conj H1 H2)))).
Defined.

(** C1 as stated fails on the mounted component, before any frame is captured:
    the mode does not stay Recording. *)
Lemma toggleMode_empty_buffer_counterexample :
  recording (initial (ImageData:=nat)) = true /\
  buffered (initial (ImageData:=nat)) = [] /\
  recording (stateOf (toggleMode (initial (ImageData:=nat)))) <> true /\
  playing (stateOf (toggleMode (initial (ImageData:=nat)))) = true.
Proof.
  split; [(vm_compute; reflexivity)|]. split; [(vm_compute; reflexivity)|]. split; [|(vm_compute; reflexivity)].
  vm_compute. discriminate.
Qed.

(** The mounted component, before any frame is captured. *)
Lemma toggleMode_empty_buffer_witness :
  recording (initial (ImageData:=nat)) = true /\
  buffered (initial (ImageData:=nat)) = [] /\
  toggleMode (initial (ImageData:=nat)) = Normal (flipToReplay initial) /\
  heap (flipToReplay (initial (ImageData:=nat))) = heap initial /\
  displayed (flipToReplay (initial (ImageData:=nat))) = displayed initial.
Proof.
  assert (Hrec : recording (initial (ImageData:=nat)) = true) by (vm_compute; reflexivity).
  assert (Hempty : buffered (initial (ImageData:=nat)) = []) by (vm_compute; reflexivity).
  destruct (toggleMode_empty_buffer initial Hrec Hempty)
    as (Hrun & _ & _ & _ & Hheap & _ & _ & _ & _ & _ & Hshown).
  exact (conj Hrec (conj Hempty (conj Hrun (conj Hheap Hshown)))).
Defined.



(** C3 as stated fails with the loop [{1, 3}] on: it is still on after leaving
    replay, and after entering it again, where the cursor is not 0 either. *)
Lemma toggleMode_session_state_counterexample :
  recording looping = false /\ abPointMode looping = true /\
  abPointMode (stateOf (toggleMode looping)) <> false /\
  abPointA (stateOf (toggleMode looping)) = Some 1%Z /\
  abPointB (stateOf (toggleMode looping)) = Some 3%Z /\
  recording recordedAgain = true /\
  abPointMode (stateOf (toggleMode recordedAgain)) <> false /\
  abPointA (stateOf (toggleMode recordedAgain)) = Some 1%Z /\
  abPointB (stateOf (toggleMode recordedAgain)) = Some 3%Z /\
  currentPlaybackIndex (stateOf (toggleMode recordedAgain)) <> 0%Z.
Proof.
  repeat split; try (vm_compute; reflexivity); vm_compute; discriminate.
Qed.

(** Entering replay from [recorded], leaving it from [replaying]. *)
Lemma toggleMode_session_state_witness :
  bufferAllocated recorded /\ recording recorded = true /\
  buffered recorded <> [] /\
  playbackSequence replaying = [2; 3; 4; 5; 6] /\
  paused replaying = false /\
  displayed replaying = [(0%Z, 2)] /\
  currentPlaybackIndex replaying = 1%Z /\
  bufferAllocated replaying /\ recording replaying = false /\
  exists s',
    toggleMode replaying = Normal s' /\
    playbackTimeoutId s' = None /\ isArmed 1 s' = false /\
    buffered s' = [2; 3; 4; 5; 6].
Proof.
  assert (Hloc : bufferAllocated recorded) by (vm_compute; lia).
  assert (Hrec : recording recorded = true) by (vm_compute; reflexivity).
  assert (Hne : buffered recorded <> []) by (vm_compute; discriminate).
  assert (Hloc' : bufferAllocated replaying) by (vm_compute; lia).
  assert (Hrec' : recording replaying = false) by (vm_compute; reflexivity).
  destruct (toggleMode_session_state recorded Hloc) as [Henter _].
  destruct (Henter Hrec Hne)
    as (_ & _ & Hpause & _ & Hseq & _ & _ & _ & _ & Hfirst).
  destruct (Hfirst ltac:(vm_compute; reflexivity) ltac:(vm_compute; reflexivity) ltac:(vm_compute; reflexivity))
    as (frame & Hframe & _ & Hshown & Hidx).
  vm_compute in Hframe. injection Hframe as <-.
  destruct (toggleMode_session_state replaying Hloc') as [_ Hleave].
  destruct (Hleave Hrec')
    as (s' & Hrun & _ & _ & _ & Hid & Harmed & _ & _ & _ & Hheap & Hbuf).
  refine (conj Hloc (conj Hrec (conj Hne (conj Hseq (conj Hpause
            (conj Hshown (conj Hidx (conj Hloc' (conj Hrec' _))))))))).
  exists s'. split; [exact Hrun|]. split; [exact Hid|].
  split; [exact (Harmed 1%positive ltac:(vm_compute; reflexivity))|].
  unfold buffered, readArray. rewrite Hbuf, Hheap. (vm_compute; reflexivity).
Defined.

(** Paused at cursor 0; the second call comes with the cursor at 2. *)
Lemma toggleABPoints_first_point_at_zero_witness :
  falsy (abPointA atZero) = true /\ currentPlaybackIndex atZero = 0%Z /\
  abPointA (toggleABPoints atZero) = Some 0%Z /\
  abPointA (toggleABPoints (set_currentPlaybackIndex 2 (toggleABPoints atZero))) =
    Some 2%Z /\
  abPointB (toggleABPoints (set_currentPlaybackIndex 2 (toggleABPoints atZero))) =
    None /\
  abPointMode (toggleABPoints (set_currentPlaybackIndex 2 (toggleABPoints atZero))) =
    false.
Proof.
  assert (HA : falsy (abPointA atZero) = true) by (vm_compute; reflexivity).
  assert (Hidx : currentPlaybackIndex atZero = 0%Z) by (vm_compute; reflexivity).
  destruct (toggleABPoints_first_point_at_zero atZero 2 HA Hidx)
    as (H1 & _ & _ & H2 & H3 & H4).
  exact (conj HA (conj Hidx (conj H1 (conj H2 (conj H3 H4))))).
Defined.

(** Point A stored as 0 (the second call stores point A again), and point A
    stored as 1 with the cursor at 3 (the second call sets [b = 3]). *)
Lemma toggleABPoints_second_call_witness :
  abPointA pointAAtZero = Some 0%Z /\ falsy (abPointB pointAAtZero) = true /\
  currentPlaybackIndex pointAAtZero = 2%Z /\
  abPointA (toggleABPoints pointAAtZero) = Some 2%Z /\
  abPointB (toggleABPoints pointAAtZero) = None /\
  abPointMode (toggleABPoints pointAAtZero) = false /\
  abPointA pointASet = Some 1%Z /\ falsy (abPointB pointASet) = true /\
  abPointB (toggleABPoints pointASet) = Some 3%Z /\
  abPointMode (toggleABPoints pointASet) = true.
Proof.
  assert (HA : abPointA pointAAtZero = Some 0%Z) by (vm_compute; reflexivity).
  assert (HB : falsy (abPointB pointAAtZero) = true) by (vm_compute; reflexivity).
  assert (Hidx : currentPlaybackIndex pointAAtZero = 2%Z) by (vm_compute; reflexivity).
  assert (HA' : abPointA pointASet = Some 1%Z) by (vm_compute; reflexivity).
  assert (HB' : falsy (abPointB pointASet) = true) by (vm_compute; reflexivity).
  destruct (toggleABPoints_second_call pointAAtZero 0 HA HB) as (H1 & H2 & H3).
  destruct (toggleABPoints_second_call pointASet 1 HA' HB') as (_ & H4 & H5).
  exact (conj HA (conj HB (conj Hidx (conj H1 (conj H2 (conj H3
          (conj HA' (conj HB' (conj H4 H5))))))))).
Defined.





(** * Further properties *)

Section Speed.

Context {ImageData : Type}.
Implicit Types (s : State ImageData).

Lemma replayNow_session s : sameSession s (stateOf (replayNow s)).
Proof.
  unfold replayNow. destruct (playing s && negb (paused s)).
  - eapply sameSession_trans; [apply (cancelStored_session s)|].
    apply playNextFrame_session.
  - apply sameSession_refl.
Qed.

(** The speed [cycleSpeed] stores, read off [speeds]. *)
Lemma cycleSpeed_speed s :
  exists speed,
    arrayGet speeds
      (Z.rem (indexOf (playbackSpeed s) speeds + 1) (Z.of_nat (length speeds))) =
      Some speed /\
    In speed speeds /\
    playbackSpeed (stateOf (cycleSpeed s)) = speed.
Proof.
  destruct (next_speed (playbackSpeed s)) as (speed & Hget & Hin).
  exists speed. split; [exact Hget|]. split; [exact Hin|].
  unfold cycleSpeed, adjustSpeed. rewrite Hget. cbn zeta.
  match goal with
  | |- playbackSpeed (stateOf (replayNow ?s0)) = _ =>
      destruct (replayNow_session s0) as (_ & _ & _ & -> & _)
  end.
  reflexivity.
Qed.

Ltac other_speed :=
  match goal with
  | H : (?x == ?c)%Q |- context [Qeq_bool ?c' ?x] =>
      let E := fresh in
      destruct (Qeq_bool c' x) eqn:E;
      [apply Qeq_bool_eq in E; rewrite H in E; discriminate E|]
  end.

Lemma indexOf_speeds (x : Q) :
  ((x == 1#10)%Q -> indexOf x speeds = 0%Z) /\
  ((x == 1#4)%Q -> indexOf x speeds = 1%Z) /\
  ((x == 1#2)%Q -> indexOf x speeds = 2%Z) /\
  ((x == 1)%Q -> indexOf x speeds = 3%Z) /\
  ((x == 2)%Q -> indexOf x speeds = 4%Z) /\
  ((forall speed, In speed speeds -> ~ (x == speed)%Q) ->
   indexOf x speeds = (-1)%Z).
Proof.
  unfold indexOf, speeds. cbn [indexOfFrom].
  repeat split; intros H.
  1-5: repeat other_speed;
       rewrite (Qeq_eq_bool _ _ (Qeq_sym _ _ H)); reflexivity.
  repeat match goal with
         | |- context [Qeq_bool ?c x] =>
             let E := fresh in
             destruct (Qeq_bool c x) eqn:E;
             [apply Qeq_bool_eq in E; exfalso;
              apply (H c); [cbn; tauto | now symmetry]|]
         end.
  reflexivity.
Qed.

(** X1.  [cycleSpeed] stores the speed that follows the current one in
    [speeds], the first after the last; a current speed that is none of the
    five is followed by the first.  The stored speed is always one of the
    five, whether or not the playback step that may follow throws. *)
Theorem cycleSpeed_cycles s :
  let next := playbackSpeed (stateOf (cycleSpeed s)) in
  In next speeds /\
  ((playbackSpeed s == 1#10)%Q -> next = (1#4)%Q) /\
  ((playbackSpeed s == 1#4)%Q -> next = (1#2)%Q) /\
  ((playbackSpeed s == 1#2)%Q -> next = 1%Q) /\
  ((playbackSpeed s == 1)%Q -> next = 2%Q) /\
  ((playbackSpeed s == 2)%Q -> next = (1#10)%Q) /\
  ((forall speed, In speed speeds -> ~ (playbackSpeed s == speed)%Q) ->
   next = (1#10)%Q).
Proof.
  intros next. subst next.
  destruct (cycleSpeed_speed s) as (speed & Hget & Hin & ->).
  destruct (indexOf_speeds (playbackSpeed s)) as (H0 & H1 & H2 & H3 & H4 & Hnone).
  split; [exact Hin|].
  repeat split; intros H;
    [rewrite (H0 H) in Hget | rewrite (H1 H) in Hget | rewrite (H2 H) in Hget
    | rewrite (H3 H) in Hget | rewrite (H4 H) in Hget | rewrite (Hnone H) in Hget];
    vm_compute in Hget; now injection Hget.
Qed.

Lemma isArmed_app id s (ts : list (positive * Q)) :
  existsb (fun t => Pos.eqb (fst t) id) (timers s ++ ts) =
    isArmed id s || existsb (fun t => Pos.eqb (fst t) id) ts.
Proof. unfold isArmed. apply existsb_app. Qed.

(** X2.  While playback runs, [cycleSpeed] makes the new speed count at once:
    it cancels the timer whose handle is stored, draws the frame under the
    cursor without waiting, and arms one timer with the delay of the new
    speed.  While paused it stores the speed and does nothing else. *)
Theorem cycleSpeed_takes_effect s :
  (forall frame,
   canPlay s ->
   arrayGet (playbackSequence s) (cursorTarget s) = Some frame ->
   exists s',
     cycleSpeed s = Normal s' /\
     displayed s' = (cursorTarget s, frame) :: displayed s /\
     currentPlaybackIndex s' = (cursorTarget s + 1)%Z /\
     timers s' =
       timers (cancelStored s) ++ [(nextTimer s, frameDelay (playbackSpeed s'))] /\
     playbackTimeoutId s' = Some (nextTimer s) /\
     (forall id, playbackTimeoutId s = Some id -> id <> nextTimer s ->
      isArmed id s' = false)) /\
  (paused s = true ->
   exists s',
     cycleSpeed s = Normal s' /\
     displayed s' = displayed s /\ timers s' = timers s /\
     currentPlaybackIndex s' = currentPlaybackIndex s /\
     paused s' = true).
Proof.
  destruct (next_speed (playbackSpeed s)) as (speed & Hget & Hin).
  split.
  - intros frame Hcan Hframe.
    pose proof Hcan as (Hcanvas & Hctx & Hplay & Hpause).
    unfold cycleSpeed, adjustSpeed. rewrite Hget. cbn zeta.
    rewrite replayNow_running by assumption.
    set (s0 := cancelStored _).
    assert (Hs0 : canPlay s0 /\ cursorTarget s0 = cursorTarget s /\
                  playbackSequence s0 = playbackSequence s /\
                  displayed s0 = displayed s /\ nextTimer s0 = nextTimer s /\
                  timers s0 = timers (cancelStored s) /\
                  playbackSpeed s0 = speed).
    { subst s0. unfold cancelStored, canPlay, cursorTarget, playbackSequence.
      cbn. destruct (playbackTimeoutId s); cbn; tauto. }
    destruct Hs0 as (Hcan0 & Htarget & Hseq & Hshown & Hnext & Htimers & Hspeed).
    destruct (playNextFrame_deliver s0 frame Hcan0)
      as (s' & Hstep & Hsame & Hidx & Hshown' & _ & Htimers' & Hid & _);
      [now rewrite Htarget, Hseq|].
    exists s'. split; [exact Hstep|].
    destruct Hsame as (_ & _ & _ & Hspeed' & _).
    rewrite Hshown', Hidx, Htimers', Hid, Htarget, Hshown, Hnext, Htimers,
      Hspeed', Hspeed.
    repeat (split; [reflexivity|]).
    intros id Hstored Hne.
    unfold isArmed. rewrite Htimers', Hnext, Htimers.
    rewrite (isArmed_app id (cancelStored s)).
    unfold cancelStored. rewrite Hstored, isArmed_clearTimeout. cbn.
    rewrite orb_false_r. apply Pos.eqb_neq. congruence.
  - intros Hpause.
    unfold cycleSpeed, adjustSpeed. rewrite Hget. cbn zeta.
    rewrite replayNow_idle by (right; exact Hpause).
    eexists. split; [reflexivity|]. cbn. tauto.
Qed.

End Speed.

Section Pause.

Context {ImageData : Type}.
Implicit Types (s : State ImageData).

(** X3.  [togglePause] never cancels a timer.  Pausing draws nothing and
    leaves every armed timer armed; resuming draws the frame under the cursor
    at once and arms one more timer.  After a pause and a resume with no
    timer firing in between, every timer armed before is thus still armed
    beside the new one. *)
Theorem pause_resume_keeps_timers s frame :
  canPlay s ->
  arrayGet (playbackSequence s) (cursorTarget s) = Some frame ->
  exists s1 s2,
    togglePause s = Normal s1 /\
    paused s1 = true /\ displayed s1 = displayed s /\ timers s1 = timers s /\
    currentPlaybackIndex s1 = currentPlaybackIndex s /\
    togglePause s1 = Normal s2 /\
    paused s2 = false /\
    displayed s2 = (cursorTarget s, frame) :: displayed s /\
    timers s2 = timers s ++ [(nextTimer s, frameDelay (playbackSpeed s))] /\
    (forall id, isArmed id s = true -> isArmed id s2 = true).
Proof.
  intros Hcan Hframe. pose proof Hcan as (Hcanvas & Hctx & Hplay & Hpause).
  exists (set_paused true s).
  assert (Hcan' : canPlay (set_paused false (set_paused true s)))
    by (unfold canPlay; cbn; auto).
  destruct (playNextFrame_deliver (set_paused false (set_paused true s)) frame Hcan')
    as (s2 & Hstep & Hsame & _ & Hshown & _ & Htimers & _); [exact Hframe|].
  exists s2.
  split; [unfold togglePause; cbn; rewrite Hpause; reflexivity|].
  repeat (split; [reflexivity|]).
  split; [unfold togglePause; cbn; rewrite Hplay; exact Hstep|].
  destruct Hsame as (_ & _ & -> & _).
  split; [reflexivity|]. split; [exact Hshown|]. split; [exact Htimers|].
  intros id Harmed. unfold isArmed. rewrite Htimers. cbn [timers set_paused].
  rewrite existsb_app. unfold isArmed in Harmed. now rewrite Harmed.
Qed.

Lemma length_clearTimeout id s :
  length (timers (clearTimeout id s)) <= length (timers s).
Proof. unfold clearTimeout. cbn. apply filter_length_le. Qed.

(** X4.  A timer that fires while the engine is paused or not playing draws
    nothing, leaves the cursor where it was and arms nothing: the chain of
    that timer ends there. *)
Theorem stale_timer_ignored s id :
  playing s = false \/ paused s = true ->
  exists s',
    handle (TimerFired id) s = Normal s' /\
    displayed s' = displayed s /\
    currentPlaybackIndex s' = currentPlaybackIndex s /\
    heap s' = heap s /\ nextTimer s' = nextTimer s /\
    isArmed id s' = false /\
    length (timers s') <= length (timers s).
Proof.
  intros Hidle. cbn [handle].
  destruct (isArmed id s) eqn:Harmed.
  - rewrite playNextFrame_skip by (cbn; tauto).
    eexists. split; [reflexivity|]. cbn.
    repeat (split; [reflexivity|]).
    split; [apply isArmed_clearTimeout | apply length_clearTimeout].
  - exists s. repeat (split; [reflexivity|]). auto.
Qed.

End Pause.

Section CaptureGuard.

Context {ImageData : Type}.
Implicit Types (s : State ImageData).


End CaptureGuard.

Section Modes.

Context {ImageData : Type}.
Implicit Types (s : State ImageData).

Lemma sameMode_refl s : sameMode s s.
Proof. unfold sameMode. tauto. Qed.

Lemma sameMode_trans s1 s2 s3 : sameMode s1 s2 -> sameMode s2 s3 -> sameMode s1 s3.
Proof. unfold sameMode. intuition congruence. Qed.

Lemma sameSession_sameMode s s' : sameSession s s' -> sameMode s s'.
Proof. unfold sameSession, sameMode. tauto. Qed.

Lemma replayNow_sameMode s0 s :
  sameMode s0 s -> sameMode s0 (stateOf (replayNow s)).
Proof.
  intros H. eapply sameMode_trans; [exact H|].
  apply sameSession_sameMode, replayNow_session.
Qed.

Lemma execute_sameMode c s :
  c <> ToggleMode -> sameMode s (stateOf (execute c s)).
Proof.
  intros Hc. destruct c as [| | |f|]; cbn [execute]; [congruence| | | |].
  - unfold togglePause. cbn zeta.
    destruct (_ && _); [|unfold sameMode; cbn; tauto].
    eapply sameMode_trans;
      [|apply sameSession_sameMode, playNextFrame_session].
    unfold sameMode. cbn. tauto.
  - unfold cycleSpeed, adjustSpeed. cbn zeta.
    destruct (arrayGet speeds _); [|apply sameMode_refl].
    apply replayNow_sameMode. unfold sameMode. cbn. tauto.
  - unfold handleProgressClick.
    destruct (_ || _); [apply sameMode_refl|]. cbn zeta.
    apply replayNow_sameMode. unfold sameMode. cbn. tauto.
  - destruct (toggleABPoints_frame s) as (_ & _ & Hheap & Hplay & Hrec).
    unfold sameMode. cbn [stateOf]. rewrite Hheap, Hplay, Hrec.
    unfold toggleABPoints.
    destruct (falsy (abPointA s)); [cbn; tauto|].
    destruct (falsy (abPointB s)); [|cbn; tauto].
    cbn zeta. destruct (jsGt _ _); cbn; tauto.
Qed.

Lemma timerFired_sameMode id s : sameMode s (stateOf (handle (TimerFired id) s)).
Proof.
  cbn [handle]. destruct (isArmed id s); [|apply sameMode_refl].
  eapply sameMode_trans;
    [|apply sameSession_sameMode, playNextFrame_session].
  unfold sameMode. cbn. tauto.
Qed.

(** What [toggleMode] does to the mode and the arrays, in its three cases. *)
Lemma toggleMode_modes s :
  let s' := stateOf (toggleMode s) in
  recording s' = negb (recording s) /\ playing s' = recording s /\
  frameBuffer s' = frameBuffer s /\ bufferSize s' = bufferSize s /\
  ((heap s' = heap s /\ playbackFrames s' = playbackFrames s) \/
   (recording s = true /\ buffered s <> [] /\
    heap s' = heap s ++ [buffered s] /\ playbackFrames s' = length (heap s))).
Proof.
  intros s'. subst s'. destruct (recording s) eqn:Hrec.
  - assert (Hcase : buffered s = [] \/ buffered s <> [])
      by (destruct (buffered s); [left | right]; congruence).
    destruct Hcase as [Hempty|Hne].
    + rewrite toggleMode_recording, startPlayback_empty by assumption.
      cbn. tauto.
    + destruct (toggleMode_enter_session s Hrec Hne)
        as (-> & -> & _ & _ & _ & _ & _ & -> & -> & -> & _ & _ & _ & ->).
      cbn. repeat (split; [reflexivity|]). right. auto.
  - rewrite toggleMode_replaying by exact Hrec. cbn zeta.
    destruct (playbackTimeoutId s); cbn; tauto.
Qed.

Lemma captureFrame_stored s w h f :
  bufferAllocated s ->
  buffered (captureFrame w h f s) = buffered s \/
  (playing s = false /\
   buffered (captureFrame w h f s) =
     if bufferSize s <? length (buffered s ++ [f])
     then drop 1 (buffered s ++ [f]) else buffered s ++ [f]).
Proof.
  intros Hloc. rewrite <- storeFrame_buffered by exact Hloc.
  unfold captureFrame, requestAnimationFrame, buffered.
  destruct (videoCanvas s), (recording s), (playing s), (liveVideo s),
           (canvasContext s), (w >? 0)%Z, (h >? 0)%Z; cbn; auto.
Qed.

Lemma length_stored (xs : list ImageData) f cap :
  length xs <=
    length (if cap <? length (xs ++ [f]) then drop 1 (xs ++ [f]) else xs ++ [f]) /\
  (length xs <= cap ->
   length (if cap <? length (xs ++ [f]) then drop 1 (xs ++ [f]) else xs ++ [f])
     <= cap).
Proof.
  destruct (Nat.ltb_spec cap (length (xs ++ [f]))) as [H|H];
    rewrite ?length_drop, length_app in *; cbn [length] in *; lia.
Qed.

(** One event, seen from the buffer. *)
Lemma handle_buffer e s :
  bufferAllocated s ->
  let s' := stateOf (handle e s) in
  bufferAllocated s' /\ frameBuffer s' = frameBuffer s /\
  bufferSize s' = bufferSize s /\
  length (buffered s) <= length (buffered s') /\
  (length (buffered s) <= bufferSize s -> length (buffered s') <= bufferSize s) /\
  (playing s = true -> e <> Issue ToggleMode -> buffered s' = buffered s).
Proof.
  intros Hloc s'. subst s'.
  assert (Hsame : forall s', sameMode s s' ->
            bufferAllocated s' /\ frameBuffer s' = frameBuffer s /\
            bufferSize s' = bufferSize s /\
            length (buffered s) <= length (buffered s') /\
            (length (buffered s) <= bufferSize s ->
             length (buffered s') <= bufferSize s) /\
            (playing s = true -> e <> Issue ToggleMode -> buffered s' = buffered s)).
  { intros s' (_ & _ & Hfb & Hsize & _ & Hheap).
    unfold bufferAllocated, buffered, readArray in *.
    rewrite Hfb, Hheap. auto 6. }
  destruct e as [c|w h f|id].
  - assert (Hcase : c = ToggleMode \/ c <> ToggleMode)
      by (destruct c; (now left) || (right; discriminate)).
    destruct Hcase as [->|Hc]; [|now apply Hsame, execute_sameMode].
    cbn [handle execute].
    destruct (toggleMode_modes s) as (_ & _ & Hfb & Hsize & Hheap).
    unfold bufferAllocated, buffered, readArray in *.
    rewrite Hfb, Hsize.
    destruct Hheap as [[-> _]|(_ & _ & -> & _)];
      rewrite ?length_app, ?lookup_app_l by exact Hloc;
      repeat split; auto; try lia; congruence.
  - cbn [handle stateOf].
    destruct (captureFrame_frame s w h f) as (_ & _ & _ & _ & _ & Hfb & Hsize & Hlen).
    split; [unfold bufferAllocated; now rewrite Hfb, Hlen|].
    split; [exact Hfb|]. split; [exact Hsize|].
    destruct (captureFrame_stored s w h f Hloc) as [->|[Hplay ->]].
    + auto.
    + destruct (length_stored (buffered s) f (bufferSize s)) as [Hge Hle].
      repeat split; auto. congruence.
  - apply Hsame, timerFired_sameMode.
Qed.

(** X6.  Whatever happens, the buffer stays the same array of the same
    capacity and never gets shorter: a frame leaves it only as another one
    comes in.  A buffer that holds a frame holds one ever after, and a buffer
    within its capacity stays within it. *)
Theorem buffer_never_shrinks es : forall s,
  bufferAllocated s ->
  frameBuffer (run es s) = frameBuffer s /\
  bufferSize (run es s) = bufferSize s /\
  length (buffered s) <= length (buffered (run es s)) /\
  (buffered s <> [] -> buffered (run es s) <> []) /\
  (length (buffered s) <= bufferSize s ->
   length (buffered (run es s)) <= bufferSize s).
Proof.
  induction es as [|e es IH]; intros s Hloc; cbn [run fold_left].
  - auto 6.
  - destruct (handle_buffer e s Hloc) as (Hloc' & Hfb & Hsize & Hge & Hle & _).
    destruct (IH _ Hloc') as (Hfb' & Hsize' & Hge' & _ & Hle').
    fold (run es (stateOf (handle e s))) in *.
    rewrite Hfb', Hsize', Hfb, Hsize in *.
    repeat split; auto; try lia.
    intros Hne Hempty. apply (f_equal (@length _)) in Hempty. cbn in Hempty.
    destruct (buffered s); [congruence | cbn in *; lia].
Qed.

End Modes.

Section Reachable.

Context {ImageData : Type}.
Implicit Types (s : State ImageData).

Lemma captureFrame_playbackFrames s w h f :
  playbackFrames (captureFrame w h f s) = playbackFrames s.
Proof.
  unfold captureFrame, storeFrame, writeArray, requestAnimationFrame.
  repeat match goal with
         | |- context [if ?b then _ else _] => destruct b
         end; reflexivity.
Qed.

Lemma captureFrame_guard_fields s w h f :
  playbackSpeed (captureFrame w h f s) = playbackSpeed s /\
  timers (captureFrame w h f s) = timers s /\
  nextTimer (captureFrame w h f s) = nextTimer s /\
  playbackTimeoutId (captureFrame w h f s) = playbackTimeoutId s.
Proof.
  unfold captureFrame, storeFrame, writeArray, requestAnimationFrame.
  repeat match goal with
         | |- context [if ?b then _ else _] => destruct b
         end; cbn; tauto.
Qed.

Lemma handle_modeInvariant e s :
  modeInvariant s -> modeInvariant (stateOf (handle e s)).
Proof.
  intros (Hmode & Hfb & Hsize & Hloc & Hlen & Hpf & Hne).
  destruct (handle_buffer e s Hloc) as (Hloc' & Hfb' & Hsize' & _ & Hlen' & _).
  assert (Hsame : sameMode s (stateOf (handle e s)) ->
            modeInvariant (stateOf (handle e s))).
  { intros (Hrec & Hplay & _ & _ & Hpf' & Hheap). unfold modeInvariant.
    rewrite Hrec, Hplay, Hfb', Hsize', Hpf', Hheap.
    split; [exact Hmode|]. split; [exact Hfb|]. split; [exact Hsize|].
    split; [exact Hloc'|]. split; [exact (Hlen' Hlen)|]. split; assumption. }
  destruct e as [c|w h f|id].
  - assert (Hcase : c = ToggleMode \/ c <> ToggleMode)
      by (destruct c; (now left) || (right; discriminate)).
    destruct Hcase as [->|Hc]; [|now apply Hsame, execute_sameMode].
    clear Hsame. cbn [handle execute] in *.
    destruct (toggleMode_modes s) as (Hrec & Hplay & _ & _ & Hheap).
    unfold modeInvariant. rewrite Hrec, Hplay, Hfb', Hsize'.
    split; [now rewrite Bool.negb_involutive|].
    split; [exact Hfb|]. split; [exact Hsize|]. split; [exact Hloc'|].
    split; [exact (Hlen' Hlen)|].
    unfold bufferAllocated in Hloc.
    destruct Hheap as [[-> ->]|(_ & _ & -> & ->)];
      rewrite ?length_app; cbn [length]; split; lia.
  - clear Hsame. cbn [handle stateOf] in *.
    destruct (captureFrame_frame s w h f) as (_ & _ & _ & Hrec & Hplay & _ & _ & Hheap).
    unfold modeInvariant.
    rewrite Hrec, Hplay, Hfb', Hsize', Hheap, captureFrame_playbackFrames.
    split; [exact Hmode|]. split; [exact Hfb|]. split; [exact Hsize|].
    split; [exact Hloc'|]. split; [exact (Hlen' Hlen)|]. split; assumption.
  - apply Hsame, timerFired_sameMode.
Qed.

(** X7.  In every state the mounted component can reach, exactly one of
    recording and playing holds, the buffer is the array it was at the start
    and holds at most [5 * FRAME_RATE] frames, and the playback sequence is
    another array than the buffer. *)
Theorem reachable_modeInvariant s : reachable s -> modeInvariant s.
Proof.
  intros [es <-].
  assert (Hrun : forall es s0, modeInvariant s0 -> modeInvariant (run es s0)).
  { clear es. induction es as [|e es IH]; intros s0 H0; cbn [run fold_left].
    - exact H0.
    - apply IH, handle_modeInvariant, H0. }
  apply Hrun. unfold modeInvariant, bufferAllocated. cbn.
  repeat split; lia.
Qed.

Lemma timerInvariant_fields s s' :
  playbackSpeed s' = playbackSpeed s -> timers s' = timers s ->
  nextTimer s' = nextTimer s -> playbackTimeoutId s' = playbackTimeoutId s ->
  timerInvariant s -> timerInvariant s'.
Proof. unfold timerInvariant. now intros -> -> -> ->. Qed.

Lemma clearTimeout_timerInvariant id s :
  timerInvariant s -> timerInvariant (clearTimeout id s).
Proof.
  intros (Hspeed & Hall & Hnodup & Hid). unfold timerInvariant, clearTimeout.
  cbn. split; [exact Hspeed|]. split; [|split; [|exact Hid]].
  - clear Hnodup. induction Hall as [|t ts Ht _ IH]; cbn; [constructor|].
    destruct (negb _); [constructor|]; assumption.
  - clear Hall. induction (timers s) as [|t ts IH]; cbn; [constructor|].
    cbn in Hnodup. apply NoDup_cons in Hnodup as [Hnotin Hnodup].
    destruct (negb _); cbn; [|auto].
    apply NoDup_cons. split; [|auto].
    intros Hin. apply Hnotin.
    apply list_elem_of_fmap in Hin as (t' & -> & Hin).
    apply list_elem_of_fmap. exists t'. split; [reflexivity|].
    apply list_elem_of_In, List.filter_In in Hin. apply list_elem_of_In, Hin.
Qed.

Lemma cancelStored_timerInvariant s :
  timerInvariant s -> timerInvariant (cancelStored s).
Proof.
  unfold cancelStored. destruct (playbackTimeoutId s) as [id|] eqn:Hid; [|auto].
  intros H. apply clearTimeout_timerInvariant, H.
Qed.

Lemma playNextFrame_timerInvariant s :
  timerInvariant s -> timerInvariant (stateOf (playNextFrame s)).
Proof.
  intros Hinv.
  destruct (videoCanvas s) eqn:Hcanvas, (canvasContext s) eqn:Hctx,
           (playing s) eqn:Hplay, (paused s) eqn:Hpause;
    try (rewrite playNextFrame_skip by auto; exact Hinv).
  rewrite playNextFrame_unfold by (unfold canPlay; auto). cbn zeta.
  destruct (arrayGet _ _); [|revert Hinv; now apply timerInvariant_fields].
  destruct Hinv as (Hspeed & Hall & Hnodup & Hid).
  unfold timerInvariant. cbn.
  split; [exact Hspeed|]. split; [|split].
  - apply Forall_app. split.
    + eapply Forall_impl; [exact Hall|]. cbn. intros t [Hlt Hd]. split; [lia|auto].
    + constructor; [|constructor]. cbn. split; [lia|].
      exists (playbackSpeed s). auto.
  - rewrite map_app. cbn. apply NoDup_app. split; [exact Hnodup|].
    split; [|apply NoDup_singleton].
    intros id Hin Hnew. apply list_elem_of_singleton in Hnew as ->.
    apply list_elem_of_fmap in Hin as (t & Ht & Hin).
    rewrite Forall_forall in Hall. destruct (Hall t Hin) as [Hlt _]. lia.
  - intros id [= <-]. lia.
Qed.

Lemma replayNow_timerInvariant s :
  timerInvariant s -> timerInvariant (stateOf (replayNow s)).
Proof.
  intros H. unfold replayNow. destruct (_ && _); [|exact H].
  apply playNextFrame_timerInvariant, (cancelStored_timerInvariant s H).
Qed.

Lemma handle_timerInvariant e s :
  timerInvariant s -> timerInvariant (stateOf (handle e s)).
Proof.
  intros Hinv. destruct e as [c|w h f|id]; cbn [handle].
  - destruct c as [| | |f|]; cbn [execute].
    + unfold toggleMode. cbn zeta.
      match goal with
      | |- context [startPlayback ?s0] =>
          assert (H0 : timerInvariant s0)
            by (revert Hinv; destruct (recording s);
                now apply timerInvariant_fields);
          destruct (playing s0)
      end.
      * unfold startPlayback. destruct (_ =? 0); [exact H0|]. cbn [allocArray].
        match goal with
        | |- context [playNextFrame ?s1] =>
            assert (H1 : timerInvariant s1)
              by (revert H0; now apply timerInvariant_fields);
            apply playNextFrame_timerInvariant in H1;
            destruct (playNextFrame s1); cbn in *; [|exact H1]
        end.
        revert H1. now apply timerInvariant_fields.
      * destruct (playbackTimeoutId _) as [id|] eqn:Hid; [|exact H0].
        cbn [stateOf].
        pose proof (clearTimeout_timerInvariant id _ H0) as (Hs & Hall & Hnd & _).
        unfold timerInvariant. cbn. repeat split; auto. discriminate.
    + unfold togglePause. cbn zeta.
      match goal with
      | |- context [playNextFrame ?s0] =>
          assert (H0 : timerInvariant s0)
            by (revert Hinv; now apply timerInvariant_fields)
      end.
      destruct (_ && _); [|exact H0]. now apply playNextFrame_timerInvariant.
    + destruct (next_speed (playbackSpeed s)) as (speed & Hget & Hin).
      unfold cycleSpeed, adjustSpeed. rewrite Hget. cbn zeta.
      apply replayNow_timerInvariant.
      destruct Hinv as (_ & Hall & Hnd & Hid).
      unfold timerInvariant. cbn. auto.
    + unfold handleProgressClick. destruct (_ || _); [exact Hinv|]. cbn zeta.
      apply replayNow_timerInvariant. revert Hinv.
      now apply timerInvariant_fields.
    + cbn [stateOf]. revert Hinv. unfold toggleABPoints.
      destruct (falsy (abPointA s));
        [now apply timerInvariant_fields|].
      destruct (falsy (abPointB s));
        [|now apply timerInvariant_fields].
      cbn zeta. destruct (jsGt _ _); now apply timerInvariant_fields.
  - cbn [stateOf]. revert Hinv.
    destruct (captureFrame_guard_fields s w h f) as (Hs & Ht & Hn & Hid).
    now apply timerInvariant_fields.
  - destruct (isArmed id s); [|exact Hinv].
    apply playNextFrame_timerInvariant, clearTimeout_timerInvariant, Hinv.
Qed.

Lemma speeds_positive speed : In speed speeds -> (0 < speed)%Q.
Proof.
  unfold speeds. cbn. intros H.
  repeat destruct H as [<-|H]; try reflexivity. contradiction.
Qed.

Lemma knownDelay_bounds delay :
  knownDelay delay -> (16 <= delay)%Q /\ (delay <= 500#3)%Q.
Proof.
  intros (speed & Hin & ->). unfold speeds in Hin. cbn in Hin.
  repeat destruct Hin as [<-|Hin]; try contradiction;
    split; vm_compute; discriminate.
Qed.

(** X8.  In every state the mounted component can reach, the speed is one of
    the five of [speeds] (so it is positive and the delay never divides by
    zero), the armed timers have handles of their own, each handed out
    before, and every one of them waits between 16 ms and 500/3 ms. *)
Theorem reachable_timers s :
  reachable s ->
  In (playbackSpeed s) speeds /\ (0 < playbackSpeed s)%Q /\
  NoDup (map fst (timers s)) /\
  Forall (fun t => (16 <= snd t)%Q /\ (snd t <= 500#3)%Q /\
                   (fst t < nextTimer s)%positive) (timers s) /\
  (forall id, playbackTimeoutId s = Some id -> (id < nextTimer s)%positive).
Proof.
  intros [es <-].
  assert (Hrun : forall es s0, timerInvariant s0 -> timerInvariant (run es s0)).
  { clear es. induction es as [|e es IH]; intros s0 H0; cbn [run fold_left].
    - exact H0.
    - apply IH, handle_timerInvariant, H0. }
  destruct (Hrun es initial) as (Hspeed & Hall & Hnodup & Hid).
  { unfold timerInvariant. cbn. repeat split.
    - tauto.
    - constructor.
    - constructor.
    - discriminate. }
  split; [exact Hspeed|]. split; [now apply speeds_positive|].
  split; [exact Hnodup|]. split; [|exact Hid].
  eapply Forall_impl; [exact Hall|]. cbn. intros t [Hlt Hd].
  destruct (knownDelay_bounds _ Hd). auto.
Qed.

End Reachable.

Section PlainPlayback.

Context {ImageData : Type}.
Implicit Types (s : State ImageData).

Lemma playFrames_plain n : forall s,
  canPlay s -> abPointMode s = false -> playbackSequence s <> [] ->
  cursorInBounds s ->
  exists s',
    playFrames n s = Normal s' /\ sameSession s s' /\ cursorInBounds s' /\
    deliveredIndices s' =
      deliveredIndices s ++
      map (plainIndex (length (playbackSequence s)) (currentPlaybackIndex s))
        (seq 0 n).
Proof.
  induction n as [|n IH]; intros s Hcan HM Hne Hin.
  - exists s. cbn. rewrite app_nil_r. auto using sameSession_refl.
  - destruct (playNextFrame_plain s Hcan HM Hne Hin)
      as (s1 & j & frame & Hstep & Hsame & Hj & Hrange & _ & Hshown & Hidx & Hin1).
    pose proof (sameSession_sequence _ _ Hsame) as Hseq.
    pose proof Hsame as (_ & _ & _ & _ & _ & _ & HM1 & _).
    destruct (IH s1) as (s' & Hrun & Hsame' & Hin' & Hout);
      rewrite ?Hseq; eauto using sameSession_canPlay; try congruence.
    exists s'. cbn [playFrames]. rewrite Hstep. cbn [andThen].
    split; [exact Hrun|]. split; [eauto using sameSession_trans|].
    split; [exact Hin'|].
    rewrite Hout, Hseq. unfold deliveredIndices. rewrite Hshown, Hidx.
    cbn [map fst rev seq]. rewrite <- app_assoc. f_equal. cbn [app].
    unfold cursorInBounds in Hin.
    set (len := Z.of_nat (length (playbackSequence s))) in *.
    assert (Hj' : j = (currentPlaybackIndex s mod len)%Z).
    { rewrite Hj. destruct (Z.eqb_spec (currentPlaybackIndex s) len) as [->|].
      - now rewrite Z.mod_same by lia.
      - rewrite Z.mod_small; lia. }
    f_equal.
    + unfold plainIndex. fold len. now rewrite Z.add_0_r.
    + rewrite <- seq_shift, map_map. apply map_ext. intros k.
      unfold plainIndex. fold len. rewrite Hj'.
      replace (currentPlaybackIndex s mod len + 1 + Z.of_nat k)%Z
        with (currentPlaybackIndex s mod len + Z.of_nat (S k))%Z by lia.
      rewrite Z.add_mod_idemp_l by lia. reflexivity.
Qed.

(** X9.  With no loop on, playback goes round the whole sequence for ever:
    from a cursor [i] within bounds the [k]-th step draws index
    [(i + k) mod length], so the last frame is followed by the first, and no
    step throws. *)
Theorem plain_playback s n :
  canPlay s -> abPointMode s = false -> playbackSequence s <> [] ->
  cursorInBounds s ->
  exists s',
    playFrames n s = Normal s' /\
    cursorInBounds s' /\
    deliveredIndices s' =
      deliveredIndices s ++
      map (plainIndex (length (playbackSequence s)) (currentPlaybackIndex s))
        (seq 0 n) /\
    (currentPlaybackIndex s = Z.of_nat (length (playbackSequence s)) - 1 ->
     plainIndex (length (playbackSequence s)) (currentPlaybackIndex s) 1 = 0)%Z.
Proof.
  intros Hcan HM Hne Hin.
  destruct (playFrames_plain n s Hcan HM Hne Hin) as (s' & Hrun & _ & Hin' & Hout).
  exists s'. repeat (split; [assumption|]).
  intros ->. unfold plainIndex.
  replace (Z.of_nat (length (playbackSequence s)) - 1 + Z.of_nat 1)%Z
    with (Z.of_nat (length (playbackSequence s))) by lia.
  apply Z.mod_same.
  destruct (playbackSequence s); [congruence | cbn; lia].
Qed.

(** X14.  With an empty playback sequence every step that passes the guard
    throws, wherever the cursor is and whatever the loop points are: nothing
    is drawn, no timer is armed and the stored handle is not renewed. *)
Theorem empty_sequence_throws s :
  canPlay s -> playbackSequence s = [] ->
  exists s',
    playNextFrame s = Throw s' /\
    displayed s' = displayed s /\ timers s' = timers s /\
    playbackTimeoutId s' = playbackTimeoutId s /\
    playbackSequence s' = [].
Proof.
  intros Hcan Hempty.
  rewrite playNextFrame_unfold by exact Hcan. cbn zeta.
  assert (Hget : arrayGet (playbackSequence s) (cursorTarget s) = None).
  { rewrite Hempty. unfold arrayGet. now destruct (_ <? _)%Z. }
  rewrite Hget. eexists. split; [reflexivity|].
  cbn. repeat (split; [reflexivity|]). exact Hempty.
Qed.

End PlainPlayback.

Section CrashFreedom.

Context {ImageData : Type}.
Implicit Types (s : State ImageData).

Lemma plainSession_transfer s s' :
  abPointMode s' = abPointMode s -> frameBuffer s' = frameBuffer s ->
  heap s' = heap s -> playbackFrames s' = playbackFrames s ->
  (playing s' = true -> playing s = true /\
     (0 <= currentPlaybackIndex s' <= Z.of_nat (length (playbackSequence s)))%Z) ->
  plainSession s -> plainSession s'.
Proof.
  intros HM Hfb Hheap Hpf Hplay (HM0 & Hloc & Hne & Hseq).
  unfold plainSession, bufferAllocated, buffered, cursorInBounds,
    playbackSequence, readArray in *.
  rewrite HM, Hfb, Hheap, Hpf. repeat (split; [assumption|]).
  intros Hp. destruct (Hplay Hp) as [Hp0 Hidx]. split; [apply Hseq, Hp0 | exact Hidx].
Qed.

Lemma step_plainSession s :
  plainSession s -> exists s', playNextFrame s = Normal s' /\ plainSession s'.
Proof.
  intros Hs.
  destruct (videoCanvas s) eqn:Hcanvas, (canvasContext s) eqn:Hctx,
           (playing s) eqn:Hplay, (paused s) eqn:Hpause;
    try (rewrite playNextFrame_skip by auto; eauto).
  pose proof Hs as (HM & Hloc & Hne & Hseq).
  destruct (Hseq Hplay) as [Hne' Hin].
  destruct (playNextFrame_plain s) as (s' & _ & _ & Hstep & Hsame & _ & _ & _ & _ & _ & Hin');
    [unfold canPlay; auto | assumption..|].
  exists s'. split; [exact Hstep|].
  pose proof (sameSession_sequence _ _ Hsame) as Hseq'.
  destruct Hsame as (_ & Hp & _ & _ & _ & _ & HM' & Hfb & _ & Hpf & _ & _ & _ & Hheap).
  revert Hs. apply plainSession_transfer; auto.
  intros _. split; [exact Hplay|]. unfold cursorInBounds in Hin'.
  now rewrite Hseq' in Hin'.
Qed.

Lemma replayNow_plainSession s :
  plainSession s -> exists s', replayNow s = Normal s' /\ plainSession s'.
Proof.
  intros Hs. pose proof Hs as (_ & _ & _ & Hseq).
  unfold replayNow. destruct (_ && _); [|eauto].
  apply step_plainSession.
  destruct (playbackTimeoutId s); [|exact Hs].
  revert Hs. apply plainSession_transfer; auto.
  intros Hp. split; [exact Hp | apply Hseq, Hp].
Qed.

Lemma captureFrame_replay_fields s w h f :
  abPointMode (captureFrame w h f s) = abPointMode s /\
  currentPlaybackIndex (captureFrame w h f s) = currentPlaybackIndex s /\
  (playing s = true -> heap (captureFrame w h f s) = heap s).
Proof.
  unfold captureFrame, storeFrame, writeArray, requestAnimationFrame.
  destruct (videoCanvas s), (recording s), (playing s), (liveVideo s),
           (canvasContext s), (w >? 0)%Z, (h >? 0)%Z; cbn;
    try match goal with
        | |- context [if ?b then _ else _] => destruct b
        end; cbn; repeat split; congruence.
Qed.

Lemma handle_plainSession e s :
  plainSession s -> plainEvent e ->
  exists s', handle e s = Normal s' /\ plainSession s'.
Proof.
  intros Hs He. pose proof Hs as (HM & Hloc & Hne & Hseq).
  destruct e as [c|w h f|id]; cbn [handle].
  - destruct c as [| | |f|]; cbn [execute plainEvent] in *.
    + destruct (recording s) eqn:Hrec.
      * rewrite toggleMode_enter by assumption.
        destruct (step_plainSession (takeSnapshot (flipToReplay s)))
          as (s1 & -> & Hs1).
        { unfold plainSession, bufferAllocated, buffered, cursorInBounds in *.
          rewrite takeSnapshot_sequence. cbn.
          unfold readArray in *. cbn. rewrite length_app.
          rewrite lookup_app_l by exact Hloc.
          split; [exact HM|]. split; [lia|]. split; [exact Hne|].
          intros _. split; [exact Hne|]. lia. }
        cbn [andThen]. eexists. split; [reflexivity|].
        pose proof Hs1 as (_ & _ & _ & Hseq1). revert Hs1.
        apply plainSession_transfer; auto.
        intros Hp. split; [exact Hp | apply Hseq1, Hp].
      * rewrite toggleMode_replaying by exact Hrec. cbn zeta.
        destruct (playbackTimeoutId s); (eexists; split; [reflexivity|]);
          revert Hs; apply plainSession_transfer; auto; discriminate.
    + unfold togglePause. cbn zeta.
      assert (H0 : plainSession (set_paused (negb (paused s)) s)).
      { revert Hs. apply plainSession_transfer; auto.
        intros Hp. split; [exact Hp | apply Hseq, Hp]. }
      destruct (_ && _); [now apply step_plainSession | eauto].
    + destruct (next_speed (playbackSpeed s)) as (speed & Hget & _).
      unfold cycleSpeed, adjustSpeed. rewrite Hget. cbn zeta.
      apply replayNow_plainSession. revert Hs.
      apply plainSession_transfer; auto.
      intros Hp. split; [exact Hp | apply Hseq, Hp].
    + unfold handleProgressClick. destruct (_ || _); [eauto|]. cbn zeta.
      apply replayNow_plainSession. revert Hs.
      apply plainSession_transfer; auto.
      intros Hp. split; [exact Hp|]. destruct He as [Hlo Hhi].
      now apply Qfloor_fraction.
    + contradiction.
  - eexists. split; [reflexivity|].
    destruct (handle_buffer (AnimationFrame w h f) s Hloc)
      as (Hloc' & Hfb & _ & Hge & _ & _).
    cbn [handle stateOf] in *.
    destruct (captureFrame_replay_fields s w h f) as (HM' & Hidx & Hheap).
    destruct (captureFrame_frame s w h f) as (_ & _ & _ & _ & Hplay & _).
    unfold plainSession. rewrite HM', Hplay.
    split; [exact HM|]. split; [exact Hloc'|]. split.
    + intros Hempty. rewrite Hempty in Hge. cbn in Hge.
      destruct (buffered s); [congruence | cbn in Hge; lia].
    + intros Hp. unfold cursorInBounds, playbackSequence, readArray.
      rewrite captureFrame_playbackFrames, Hidx, (Hheap Hp).
      apply Hseq, Hp.
  - destruct (isArmed id s); [|eauto].
    apply step_plainSession. revert Hs.
    apply plainSession_transfer; auto.
    intros Hp. split; [exact Hp | apply Hseq, Hp].
Qed.

(** X10.  Once the buffer holds a frame, the engine cannot throw as long as
    no loop point is set and every seek is inside the bar: from a state with
    no loop on, a non-empty buffer and, while playing, a non-empty sequence
    and a cursor within bounds, every handler of every run of mode toggles,
    pauses, speed changes, seeks to [f] in [[0, 1]], captured frames and
    timers ends normally, and the run ends in such a state again. *)
Theorem plain_session_never_throws es : forall s,
  plainSession s -> Forall plainEvent es ->
  crashFree es s /\ plainSession (run es s).
Proof.
  induction es as [|e es IH]; intros s Hs Hes; cbn [crashFree run fold_left].
  - auto.
  - apply Forall_cons in Hes as [He Hes].
    destruct (handle_plainSession e s Hs He) as (s' & Hstep & Hs').
    rewrite Hstep. cbn [stateOf].
    destruct (IH s' Hs' Hes) as [Hfree Hend].
    split; [eauto | exact Hend].
Qed.

End CrashFreedom.

Section Composition.

Context {ImageData : Type}.
Implicit Types (s : State ImageData).

(** X11.  A loop that [toggleABPoints] turns on can be played: with point A
    stored at an index [a] of the sequence other than 0 and the cursor within
    bounds, the second call sets [b] with [a <= b <= length] and playback
    from there draws the indices of that loop for ever without throwing.
    Point A stored at the length itself (the cursor just past the last
    frame) with the cursor moved back gives [b = length - 1], below [a]. *)
Theorem loop_points_in_range s a :
  abPointA s = Some a -> a <> 0%Z -> falsy (abPointB s) = true ->
  let len := Z.of_nat (length (playbackSequence s)) in
  ((0 < a < len)%Z -> cursorInBounds s -> canPlay s ->
   exists b,
     abPointB (toggleABPoints s) = Some b /\
     abPointMode (toggleABPoints s) = true /\
     (a <= b <= len)%Z /\
     forall n, exists s',
       playFrames n (toggleABPoints s) = Normal s' /\
       deliveredIndices s' =
         deliveredIndices s ++
         map (loopIndex a b (currentPlaybackIndex s)) (seq 0 n)) /\
  (a = len -> (currentPlaybackIndex s < a)%Z ->
   abPointB (toggleABPoints s) = Some (len - 1)%Z /\
   abPointMode (toggleABPoints s) = true /\ (len - 1 < a)%Z).
Proof.
  intros HA Ha HB len. rewrite (toggleABPoints_second s a HA Ha HB). split.
  - intros Hrange Hin Hcan. unfold cursorInBounds in Hin. fold len in Hin.
    eexists. split; [reflexivity|]. split; [reflexivity|].
    split; [destruct (Z.gtb_spec a (currentPlaybackIndex s)); lia|].
    intros n.
    match goal with
    | |- context [playFrames n ?s0] =>
        destruct (playFrames_loop n s0 a
                    (if (a >? currentPlaybackIndex s)%Z
                     then (len - 1)%Z else currentPlaybackIndex s))
          as (s' & Hrun & _ & Hout)
    end; try (cbn; assumption || reflexivity || lia).
    + change (playbackSequence _) with (playbackSequence s).
      destruct (Z.gtb_spec a (currentPlaybackIndex s)); lia.
    + change (playbackSequence _) with (playbackSequence s). fold len. lia.
    + change (playbackSequence _) with (playbackSequence s). fold len.
      destruct (Z.gtb_spec a (currentPlaybackIndex s)); lia.
    + exists s'. split; [exact Hrun | exact Hout].
  - intros -> Hlt. cbn.
    rewrite (proj2 (Z.gtb_lt _ _)) by lia. fold len.
    repeat split; lia.
Qed.

Lemma filter_fresh id (ts : list (positive * Q)) delay :
  (forall t, In t ts -> fst t <> id) ->
  List.filter (fun t => negb (Pos.eqb (fst t) id)) (ts ++ [(id, delay)]) = ts.
Proof.
  intros Hfresh. rewrite List.filter_app. cbn. rewrite Pos.eqb_refl. cbn.
  rewrite app_nil_r. induction ts as [|t ts IH]; [reflexivity|]. cbn.
  rewrite (proj2 (Pos.eqb_neq _ _)) by (apply Hfresh; now left). cbn.
  f_equal. apply IH. intros t' Hin. apply Hfresh. now right.
Qed.

(** X12.  Entering replay and leaving it at once undoes itself for capture:
    with frames in the buffer, a canvas, no loop on and the next timer handle
    not in use, the two toggles end in recording with the buffer and the
    armed timers as they were and no handle stored; what stays is the first
    frame on the canvas and the copy of the buffer as playback sequence. *)
Theorem enter_then_leave s :
  recording s = true -> buffered s <> [] -> bufferAllocated s ->
  videoCanvas s = true -> canvasContext s = true -> abPointMode s = false ->
  (forall t, In t (timers s) -> fst t <> nextTimer s) ->
  exists s1 s2 frame,
    toggleMode s = Normal s1 /\ toggleMode s1 = Normal s2 /\
    recording s2 = true /\ playing s2 = false /\ paused s2 = false /\
    buffered s2 = buffered s /\ timers s2 = timers s /\
    playbackTimeoutId s2 = None /\
    buffered s !! 0 = Some frame /\
    displayed s2 = (0%Z, frame) :: displayed s /\
    playbackSequence s2 = buffered s.
Proof.
  intros Hrec Hne Hloc Hcanvas Hctx HM Hfresh.
  rewrite toggleMode_enter by assumption.
  set (s0 := takeSnapshot (flipToReplay s)).
  assert (Hcan : canPlay s0) by (unfold canPlay; cbn; auto).
  assert (Htarget : cursorTarget s0 = 0%Z).
  { unfold cursorTarget. cbn. rewrite HM. now destruct (_ >=? _)%Z. }
  assert (Hseq0 : playbackSequence s0 = buffered s)
    by apply (takeSnapshot_sequence (flipToReplay s)).
  destruct (buffered s) as [|frame rest] eqn:Hbuf; [congruence|].
  destruct (playNextFrame_deliver s0 frame Hcan)
    as (s1 & Hstep & Hsame & _ & Hshown & _ & Htimers & Hid & _);
    [now rewrite Htarget, Hseq0|].
  pose proof (sameSession_sequence _ _ Hsame) as Hseq1.
  destruct Hsame as (Hr & _ & _ & _ & _ & _ & _ & Hfb & _ & Hpf & _ & _ & _ & Hheap).
  cbn in Hr, Hfb, Hpf, Hheap, Htimers, Hid, Hshown.
  rewrite Hstep. cbn [andThen].
  exists (set_statusText "回放中" s1). eexists. exists frame.
  split; [reflexivity|].
  rewrite toggleMode_replaying by exact Hr. cbn zeta.
  cbn [playbackTimeoutId set_statusText]. rewrite Hid.
  split; [reflexivity|]. cbn.
  repeat (split; [reflexivity|]).
  split.
  { unfold buffered, readArray. cbn. rewrite Hfb, Hheap.
    rewrite lookup_app_l by exact Hloc.
    unfold buffered, readArray in Hbuf. now rewrite Hbuf. }
  split; [rewrite Htimers; now apply filter_fresh|].
  split; [reflexivity|]. split; [reflexivity|].
  split; [now rewrite Hshown, Htarget|].
  unfold playbackSequence, readArray in *. cbn. rewrite Hseq1 in *. exact Hseq0.
Qed.


End Composition.

Section Scrub.

Context {ImageData : Type}.
Implicit Types (s : State ImageData).

(** X15.  A step that draws a frame reports how far into the sequence the
    frame is: [progress] is the index drawn over the length, a fraction that
    is at least 0 and below 1, loop or no loop. *)
Theorem progress_is_fraction s frame :
  canPlay s ->
  arrayGet (playbackSequence s) (cursorTarget s) = Some frame ->
  exists s' q,
    playNextFrame s = Normal s' /\ progress s' = Num q /\
    (q == inject_Z (cursorTarget s) / inject_Z (Z.of_nat (length (playbackSequence s))))%Q /\
    (0 <= q)%Q /\ (q < 1)%Q.
Proof.
  intros Hcan Hframe.
  destruct (playNextFrame_deliver s frame Hcan Hframe)
    as (s' & Hstep & _ & _ & _ & Hprogress & _).
  assert (Hrange : (0 <= cursorTarget s < Z.of_nat (length (playbackSequence s)))%Z).
  { unfold arrayGet in Hframe.
    destruct (Z.ltb_spec (cursorTarget s) 0); [discriminate|].
    apply lookup_lt_Some in Hframe. lia. }
  destruct (length (playbackSequence s)) as [|n] eqn:Hlen; [lia|].
  exists s', (cursorTarget s # Pos.of_succ_nat n)%Q.
  split; [exact Hstep|]. split; [exact Hprogress|].
  assert (Hpos : Z.of_nat (S n) = Z.pos (Pos.of_succ_nat n)) by lia.
  rewrite Hpos in *. split; [|split].
  - rewrite (Qmake_Qdiv (cursorTarget s) (Pos.of_succ_nat n)). reflexivity.
  - unfold Qle. cbn. lia.
  - unfold Qlt. cbn. lia.
Qed.



End Scrub.

(** * The further properties on the numbered session *)

(** From speed 1/4 the next is 1/2. *)
Lemma cycleSpeed_cycles_witness :
  (playbackSpeed replaying == 1#4)%Q /\
  playbackSpeed (stateOf (cycleSpeed replaying)) = (1#2)%Q /\
  In (playbackSpeed (stateOf (cycleSpeed replaying))) speeds.
Proof.
  assert (Hspeed : (playbackSpeed replaying == 1#4)%Q) by (vm_compute; reflexivity).
  destruct (cycleSpeed_cycles replaying) as (Hin & _ & Hnext & _).
  exact (conj Hspeed (conj (Hnext Hspeed) Hin)).
Defined.

(** A speed change while frame 3 is due, and one while paused. *)
Lemma cycleSpeed_takes_effect_witness :
  canPlay replaying /\
  arrayGet (playbackSequence replaying) (cursorTarget replaying) = Some 3 /\
  (exists s',
     cycleSpeed replaying = Normal s' /\
     displayed s' = (cursorTarget replaying, 3) :: displayed replaying /\
     playbackTimeoutId s' = Some (nextTimer replaying) /\
     isArmed 1 s' = false) /\
  paused pausedReplay = true /\
  (exists s',
     cycleSpeed pausedReplay = Normal s' /\
     displayed s' = displayed pausedReplay /\ timers s' = timers pausedReplay).
Proof.
  assert (Hcan : canPlay replaying)
    by (unfold canPlay; repeat split; vm_compute; reflexivity).
  assert (Hget : arrayGet (playbackSequence replaying) (cursorTarget replaying) = Some 3)
    by (vm_compute; reflexivity).
  assert (Hpause : paused pausedReplay = true) by (vm_compute; reflexivity).
  destruct (cycleSpeed_takes_effect replaying) as [Hrun _].
  destruct (Hrun 3 Hcan Hget) as (s1 & Hstep & Hshown & _ & _ & Hid & Harmed).
  destruct (cycleSpeed_takes_effect pausedReplay) as [_ Hidle].
  destruct (Hidle Hpause) as (s2 & Hstep2 & Hshown2 & Htimers2 & _).
  refine (conj Hcan (conj Hget (conj _ (conj Hpause _)))).
  - exists s1. split; [exact Hstep|]. split; [exact Hshown|].
    split; [exact Hid|].
    apply (Harmed 1%positive); [vm_compute; reflexivity | vm_compute; discriminate].
  - exists s2. split; [exact Hstep2|]. split; [exact Hshown2 | exact Htimers2].
Defined.

(** Pause and resume while timer 1 is armed: timers 1 and 2 are armed. *)
Lemma pause_resume_keeps_timers_witness :
  canPlay replaying /\
  arrayGet (playbackSequence replaying) (cursorTarget replaying) = Some 3 /\
  isArmed 1 replaying = true /\
  exists s1 s2,
    togglePause replaying = Normal s1 /\ togglePause s1 = Normal s2 /\
    isArmed 1 s2 = true /\
    timers s2 =
      timers replaying ++ [(nextTimer replaying, frameDelay (playbackSpeed replaying))].
Proof.
  assert (Hcan : canPlay replaying)
    by (unfold canPlay; repeat split; vm_compute; reflexivity).
  assert (Hget : arrayGet (playbackSequence replaying) (cursorTarget replaying) = Some 3)
    by (vm_compute; reflexivity).
  assert (Harmed : isArmed 1 replaying = true) by (vm_compute; reflexivity).
  destruct (pause_resume_keeps_timers replaying 3 Hcan Hget)
    as (s1 & s2 & H1 & _ & _ & _ & _ & H2 & _ & _ & Htimers & Hkeep).
  refine (conj Hcan (conj Hget (conj Harmed _))).
  exists s1, s2. split; [exact H1|]. split; [exact H2|].
  split; [exact (Hkeep 1%positive Harmed) | exact Htimers].
Defined.

(** Timer 1 fires during the pause. *)
Lemma stale_timer_ignored_witness :
  (playing pausedReplay = false \/ paused pausedReplay = true) /\
  isArmed 1 pausedReplay = true /\
  exists s',
    handle (TimerFired 1) pausedReplay = Normal s' /\
    displayed s' = displayed pausedReplay /\ isArmed 1 s' = false.
Proof.
  assert (Hidle : playing pausedReplay = false \/ paused pausedReplay = true)
    by (right; vm_compute; reflexivity).
  assert (Harmed : isArmed 1 pausedReplay = true) by (vm_compute; reflexivity).
  destruct (stale_timer_ignored pausedReplay 1 Hidle)
    as (s' & Hstep & Hshown & _ & _ & _ & Hgone & _).
  refine (conj Hidle (conj Harmed _)). exists s'.
  split; [exact Hstep|]. split; [exact Hshown | exact Hgone].
Defined.


(** The plain run from five buffered frames. *)
Lemma buffer_never_shrinks_witness :
  bufferAllocated recorded /\ length (buffered recorded) = 5 /\
  5 <= length (buffered (run plainRun recorded)) /\
  buffered (run plainRun recorded) <> [] /\
  length (buffered (run plainRun recorded)) <= 5.
Proof.
  assert (Hloc : bufferAllocated recorded) by (vm_compute; lia).
  assert (Hlen : length (buffered recorded) = 5) by (vm_compute; reflexivity).
  assert (Hsize : bufferSize recorded = 5) by (vm_compute; reflexivity).
  destruct (buffer_never_shrinks plainRun recorded Hloc)
    as (_ & _ & Hge & Hne & Hle).
  rewrite Hlen, Hsize in *.
  refine (conj Hloc (conj eq_refl (conj Hge (conj _ _)))).
  - apply Hne. vm_compute. discriminate.
  - apply Hle. lia.
Defined.

Lemma reachable_modeInvariant_witness :
  reachable firstReplay /\ modeInvariant firstReplay.
Proof.
  assert (Hreach : reachable firstReplay)
    by (exists [AnimationFrame 640 480 1; Issue ToggleMode]; vm_compute; reflexivity).
  exact (conj Hreach (reachable_modeInvariant firstReplay Hreach)).
Defined.

Lemma reachable_timers_witness :
  reachable firstReplay /\ isArmed 1 firstReplay = true /\
  In (playbackSpeed firstReplay) speeds /\
  Forall (fun t => (16 <= snd t)%Q /\ (snd t <= 500#3)%Q /\
                   (fst t < nextTimer firstReplay)%positive) (timers firstReplay).
Proof.
  assert (Hreach : reachable firstReplay)
    by (exists [AnimationFrame 640 480 1; Issue ToggleMode]; vm_compute; reflexivity).
  assert (Harmed : isArmed 1 firstReplay = true) by (vm_compute; reflexivity).
  destruct (reachable_timers firstReplay Hreach) as (Hspeed & _ & _ & Hall & _).
  exact (conj Hreach (conj Harmed (conj Hspeed Hall))).
Defined.

(** Six steps from cursor 1 over five frames. *)
Lemma plain_playback_witness :
  canPlay replaying /\ abPointMode replaying = false /\
  playbackSequence replaying <> [] /\ cursorInBounds replaying /\
  exists s',
    playFrames 6 replaying = Normal s' /\
    deliveredIndices s' = [0; 1; 2; 3; 4; 0; 1]%Z.
Proof.
  assert (Hcan : canPlay replaying)
    by (unfold canPlay; repeat split; vm_compute; reflexivity).
  assert (HM : abPointMode replaying = false) by (vm_compute; reflexivity).
  assert (Hne : playbackSequence replaying <> []) by (vm_compute; discriminate).
  assert (Hin : cursorInBounds replaying)
    by (unfold cursorInBounds; vm_compute; split; discriminate).
  destruct (plain_playback replaying 6 Hcan HM Hne Hin) as (s' & Hrun & _ & Hout & _).
  refine (conj Hcan (conj HM (conj Hne (conj Hin _)))).
  exists s'. split; [exact Hrun|]. rewrite Hout. vm_compute. reflexivity.
Defined.

Lemma empty_sequence_throws_witness :
  canPlay emptyReplay /\ playbackSequence emptyReplay = [] /\
  exists s', playNextFrame emptyReplay = Throw s' /\ timers s' = timers emptyReplay.
Proof.
  assert (Hcan : canPlay emptyReplay)
    by (unfold canPlay; repeat split; vm_compute; reflexivity).
  assert (Hempty : playbackSequence emptyReplay = []) by (vm_compute; reflexivity).
  destruct (empty_sequence_throws emptyReplay Hcan Hempty)
    as (s' & Hstep & _ & Htimers & _).
  refine (conj Hcan (conj Hempty _)). exists s'.
  split; [exact Hstep | exact Htimers].
Defined.

Lemma plain_session_never_throws_witness :
  plainSession recorded /\ Forall plainEvent plainRun /\
  crashFree plainRun recorded /\ plainSession (run plainRun recorded).
Proof.
  assert (Hs : plainSession recorded).
  { unfold plainSession, bufferAllocated. split; [vm_compute; reflexivity|].
    split; [vm_compute; lia|]. split; [vm_compute; discriminate|].
    intros Hp. vm_compute in Hp. discriminate Hp. }
  assert (Hes : Forall plainEvent plainRun).
  { unfold plainRun. repeat constructor; vm_compute; discriminate. }
  destruct (plain_session_never_throws plainRun recorded Hs Hes) as [Hfree Hend].
  exact (conj Hs (conj Hes (conj Hfree Hend))).
Defined.

(** Point A at 1 with the cursor at 3, and point A at 5 with the cursor
    at 1. *)
Lemma loop_points_in_range_witness :
  abPointA pointASet = Some 1%Z /\ 1%Z <> 0%Z /\ falsy (abPointB pointASet) = true /\
  (exists b,
     abPointB (toggleABPoints pointASet) = Some b /\
     (1 <= b <= Z.of_nat (length (playbackSequence pointASet)))%Z /\
     exists s', playFrames 4 (toggleABPoints pointASet) = Normal s') /\
  abPointA pointAPastEnd = Some 5%Z /\ falsy (abPointB pointAPastEnd) = true /\
  abPointB (toggleABPoints pointAPastEnd) =
    Some (Z.of_nat (length (playbackSequence pointAPastEnd)) - 1)%Z.
Proof.
  assert (HA : abPointA pointASet = Some 1%Z) by (vm_compute; reflexivity).
  assert (Ha : 1%Z <> 0%Z) by discriminate.
  assert (HB : falsy (abPointB pointASet) = true) by (vm_compute; reflexivity).
  assert (HA' : abPointA pointAPastEnd = Some 5%Z) by (vm_compute; reflexivity).
  assert (Ha' : 5%Z <> 0%Z) by discriminate.
  assert (HB' : falsy (abPointB pointAPastEnd) = true) by (vm_compute; reflexivity).
  destruct (loop_points_in_range pointASet 1 HA Ha HB) as [Hgood _].
  destruct Hgood as (b & Hb & _ & Hrange & Hplay).
  { vm_compute. split; reflexivity. }
  { unfold cursorInBounds. vm_compute. split; discriminate. }
  { unfold canPlay. repeat split; vm_compute; reflexivity. }
  destruct (loop_points_in_range pointAPastEnd 5 HA' Ha' HB') as [_ Hedge].
  destruct Hedge as (Hb' & _ & _).
  { vm_compute. reflexivity. }
  { vm_compute. reflexivity. }
  refine (conj HA (conj Ha (conj HB (conj _ (conj HA' (conj HB' Hb')))))).
  exists b. split; [exact Hb|]. split; [exact Hrange|].
  destruct (Hplay 4) as (s' & Hrun & _). exists s'. exact Hrun.
Defined.

Lemma enter_then_leave_witness :
  recording recorded = true /\ buffered recorded <> [] /\ bufferAllocated recorded /\
  exists s1 s2,
    toggleMode recorded = Normal s1 /\ toggleMode s1 = Normal s2 /\
    recording s2 = true /\ buffered s2 = buffered recorded /\
    timers s2 = timers recorded /\ playbackTimeoutId s2 = None.
Proof.
  assert (Hrec : recording recorded = true) by (vm_compute; reflexivity).
  assert (Hne : buffered recorded <> []) by (vm_compute; discriminate).
  assert (Hloc : bufferAllocated recorded) by (vm_compute; lia).
  destruct (enter_then_leave recorded Hrec Hne Hloc)
    as (s1 & s2 & frame & H1 & H2 & Hr & _ & _ & Hbuf & Htimers & Hid & _).
  { vm_compute. reflexivity. }
  { vm_compute. reflexivity. }
  { vm_compute. reflexivity. }
  { intros t Hin. vm_compute in Hin. contradiction. }
  refine (conj Hrec (conj Hne (conj Hloc _))).
  exists s1, s2.
  exact (conj H1 (conj H2 (conj Hr (conj Hbuf (conj Htimers Hid))))).
Defined.


(** Frame 3 of five: index 1, progress 1/5. *)
Lemma progress_is_fraction_witness :
  canPlay replaying /\
  arrayGet (playbackSequence replaying) (cursorTarget replaying) = Some 3 /\
  exists s' q,
    playNextFrame replaying = Normal s' /\ progress s' = Num q /\
    (0 <= q)%Q /\ (q < 1)%Q.
Proof.
  assert (Hcan : canPlay replaying)
    by (unfold canPlay; repeat split; vm_compute; reflexivity).
  assert (Hget : arrayGet (playbackSequence replaying) (cursorTarget replaying) = Some 3)
    by (vm_compute; reflexivity).
  destruct (progress_is_fraction replaying 3 Hcan Hget)
    as (s' & q & Hstep & Hprogress & _ & Hlo & Hhi).
  refine (conj Hcan (conj Hget _)). exists s', q.
  exact (conj Hstep (conj Hprogress (conj Hlo Hhi))).
Defined.


